(** * nodaapay: the per-proxy session agent and the fleet loop of [noda.py]

    A shallow embedding of [ProxyManager] (authentication, heartbeat,
    logout), of [fetch_proxies] and of the task table maintained by [main],
    followed by the properties of the specification that were checked
    against it and by further properties of the code.

    Conventions of the embedding
    - a parsed response body is a [json] value, with Python's truthiness,
      [in], subscript, [.get], [<] and [==] written out, including the
      exceptions they raise on the wrong kind of value;
    - a method of [ProxyManager] is a function in the monad [M]: it takes the
      object's fields and returns an [outcome] together with the new fields;
    - every [await] on the network takes its result from the environment: a
      coroutine is run against the list of results of its successive
      [call_api] awaits and is [Pending] when that list is used up. *)

From Stdlib Require Import ZArith String Ascii List Bool SpecFloat Lia.
From stdpp Require Import base option list strings gmap fin_maps.

Local Open Scope string_scope.
Local Open Scope Z_scope.

(** ** Parsed JSON, as [json.loads] builds it *)

#[local] Unset Elimination Schemes.
Inductive json : Type :=
| JNull                                   (* None *)
| JBool (b : bool)
| JInt (z : Z)                            (* int, unbounded *)
| JFloat (f : spec_float)                 (* float *)
| JStr (s : string)
| JArr (l : list json)
| JObj (kv : list (string * json)).       (* dict, in insertion order *)
#[local] Set Elimination Schemes.

(** Exceptions the code can see.  [CancelledError] derives from
    [BaseException] only (Python 3.8 and later), every other one from
    [Exception]. *)
Inductive exn : Type :=
| ValueError | TypeError | KeyError | AttributeError
| ClientError | TimeoutError | JSONDecodeError | InvalidStateError
| CancelledError.

Definition is_Exception (e : exn) : bool :=
  match e with CancelledError => false | _ => true end.

Definition is_ClientError (e : exn) : bool :=
  match e with ClientError => true | _ => false end.

Inductive outcome (A : Type) : Type :=
| Ok (a : A)          (* returned a *)
| Raise (e : exn)     (* raised e *)
| Pending.            (* suspended at an await with no result yet *)
Arguments Ok {A} a.
Arguments Raise {A} e.
Arguments Pending {A}.

Module Py.

Fixpoint dict_get (k : string) (kv : list (string * json)) : option json :=
  match kv with
  | [] => None
  | (k', v) :: kv' => if String.eqb k k' then Some v else dict_get k kv'
  end.

(** the exact value of a float against an integer *)
Definition float_eq_int (f : spec_float) (n : Z) : bool :=
  match f with
  | S754_zero _ => n =? 0
  | S754_finite s m e =>
      let v := if s then Z.neg m else Z.pos m in
      if 0 <=? e then v * 2 ^ e =? n else v =? n * 2 ^ (- e)
  | _ => false
  end.

Definition float_lt0 (f : spec_float) : bool :=
  match f with
  | S754_infinity true | S754_finite true _ _ => true
  | _ => false
  end.

(** [bool(v)] *)
Definition truthy (v : json) : bool :=
  match v with
  | JNull => false
  | JBool b => b
  | JInt z => negb (z =? 0)
  | JFloat (S754_zero _) => false
  | JFloat _ => true
  | JStr s => negb (String.eqb s "")
  | JArr l => match l with [] => false | _ => true end
  | JObj kv => match kv with [] => false | _ => true end
  end.

(** [k in v], for a string [k] *)
Definition contains (k : string) (v : json) : outcome bool :=
  match v with
  | JObj kv => Ok (bool_decide (is_Some (dict_get k kv)))
  | JArr l =>
      Ok (existsb (fun x => match x with JStr s => String.eqb s k | _ => false end) l)
  | JStr s => Ok (bool_decide (is_Some (String.index 0 k s)))
  | _ => Raise TypeError
  end.

(** [v[k]], for a string [k] *)
Definition getitem (v : json) (k : string) : outcome json :=
  match v with
  | JObj kv => match dict_get k kv with Some x => Ok x | None => Raise KeyError end
  | _ => Raise TypeError
  end.

(** [v.get(k)] *)
Definition get (v : json) (k : string) : outcome json :=
  match v with
  | JObj kv => Ok (default JNull (dict_get k kv))
  | _ => Raise AttributeError
  end.

(** [v < 0] *)
Definition lt0 (v : json) : outcome bool :=
  match v with
  | JInt z => Ok (z <? 0)
  | JBool _ => Ok false
  | JFloat f => Ok (float_lt0 f)
  | _ => Raise TypeError
  end.

(** [v == n], for an int [n] *)
Definition eq_int (v : json) (n : Z) : bool :=
  match v with
  | JInt z => z =? n
  | JBool b => (if b then 1 else 0) =? n
  | JFloat f => float_eq_int f n
  | _ => false
  end.

End Py.

(** ** Constants *)

Definition NP_TOKEN : string := "WRITE_YOUR_NP_TOKEN_HERE".
Definition PING_INTERVAL : Z := 30.
Definition RETRIES : Z := 60.

(** [CONNECTION_STATES] *)
Definition CONNECTED : Z := 1.
Definition DISCONNECTED : Z := 2.
Definition NONE_CONNECTION : Z := 3.

(** ** ProxyManager *)

Record ProxyManager : Type := mkProxyManager {
  token_info : option string;     (* None after a logout *)
  proxy : string;
  browser_id : string;
  account_info : json;
  status_connect : Z;
  retries : Z
}.

(** [__init__]; the uuid4 is an input *)
Definition init (np_token proxy uuid : string) : ProxyManager :=
  {| token_info := Some np_token; proxy := proxy; browser_id := uuid;
     account_info := JObj []; status_connect := NONE_CONNECTION; retries := 0 |}.

Definition M (A : Type) : Type := ProxyManager -> outcome A * ProxyManager.

Definition ret {A} (a : A) : M A := fun s => (Ok a, s).
Definition raise {A} (e : exn) : M A := fun s => (Raise e, s).
Definition pending {A} : M A := fun s => (Pending, s).
Definition bind {A B} (m : M A) (k : A -> M B) : M B :=
  fun s => match m s with
           | (Ok a, s') => k a s'
           | (Raise e, s') => (Raise e, s')
           | (Pending, s') => (Pending, s')
           end.
Definition lift {A} (o : outcome A) : M A := fun s => (o, s).
Definition gets {A} (f : ProxyManager -> A) : M A := fun s => (Ok (f s), s).
Definition modify (f : ProxyManager -> ProxyManager) : M unit := fun s => (Ok tt, f s).

(** [try: body  except <catches> as e: handler e] *)
Definition try_except {A} (body : M A) (catches : exn -> bool) (handler : exn -> M A) : M A :=
  fun s => match body s with
           | (Raise e, s') => if catches e then handler e s' else (Raise e, s')
           | r => r
           end.

Declare Scope py_scope.
Delimit Scope py_scope with py.
Notation "'let*' x ':=' m 'in' k" := (bind m (fun x => k))
  (at level 10, x pattern, m at level 100, k at level 200) : py_scope.
Notation "m ';;' k" := (bind m (fun _ => k))
  (at level 100, k at level 200, right associativity) : py_scope.
Local Open Scope py_scope.

Definition set_token_info (v : option string) (s : ProxyManager) : ProxyManager :=
  {| token_info := v; proxy := proxy s; browser_id := browser_id s;
     account_info := account_info s; status_connect := status_connect s;
     retries := retries s |}.
Definition set_account_info (v : json) (s : ProxyManager) : ProxyManager :=
  {| token_info := token_info s; proxy := proxy s; browser_id := browser_id s;
     account_info := v; status_connect := status_connect s; retries := retries s |}.
Definition set_status_connect (v : Z) (s : ProxyManager) : ProxyManager :=
  {| token_info := token_info s; proxy := proxy s; browser_id := browser_id s;
     account_info := account_info s; status_connect := v; retries := retries s |}.
Definition set_retries (v : Z) (s : ProxyManager) : ProxyManager :=
  {| token_info := token_info s; proxy := proxy s; browser_id := browser_id s;
     account_info := account_info s; status_connect := status_connect s;
     retries := v |}.

(** What the network gives back to one [session.post ... resp.json()]:
    a parsed body, or an exception thrown at the await (a client error, a
    timeout, an undecodable body, or the cancellation of the task). *)
Inductive net : Type :=
| NetBody (j : json)
| NetRaise (e : exn).

(** [valid_resp] *)
Definition valid_resp (resp : json) : outcome json :=
  if negb (Py.truthy resp) then Raise ValueError else
  match Py.contains "code" resp with
  | Ok has =>
      if negb has then Raise ValueError else
      match Py.getitem resp "code" with
      | Ok c =>
          match Py.lt0 c with
          | Ok neg => if neg then Raise ValueError else Ok resp
          | Raise e => Raise e
          | Pending => Pending
          end
      | Raise e => Raise e
      | Pending => Pending
      end
  | Raise e => Raise e
  | Pending => Pending
  end.

(** [call_api], given what the network did *)
Definition call_api (o : net) : M json :=
  match o with
  | NetBody response => lift (valid_resp response)
  | NetRaise e => if is_ClientError e then raise ValueError else raise e
  end.

(** [handle_logout] *)
Definition handle_logout : M unit :=
  modify (set_token_info None) ;;
  modify (set_status_connect NONE_CONNECTION) ;;
  modify (set_account_info (JObj [])).

(** [handle_ping_fail]; [JNull] is the [None] passed by [ping] *)
Definition handle_ping_fail (response : json) : M unit :=
  modify (fun s => set_retries (retries s + 1) s) ;;
  let* forbidden :=
    (if Py.truthy response
     then let* c := lift (Py.get response "code") in ret (Py.eq_int c 403)
     else ret false) in
  if forbidden then handle_logout
  else
    let* r := gets retries in
    if r <? RETRIES
    then modify (set_status_connect DISCONNECTED)
    else modify (set_status_connect DISCONNECTED).

(** the [data] of a heartbeat: only ["id"] can fail to evaluate *)
Definition ping_data : M json :=
  let* acc := gets account_info in
  lift (Py.get acc "uid").

(** [ping], given what the network did with its request *)
Definition ping (o : net) : M unit :=
  let* uid := ping_data in
  try_except
    (let* response := call_api o in
     let* c := lift (Py.getitem response "code") in
     if Py.eq_int c 0
     then modify (set_retries 0) ;; modify (set_status_connect CONNECTED)
     else handle_ping_fail response)
    is_Exception
    (fun _ => handle_ping_fail JNull).

(** a heartbeat whose request has no result yet *)
Definition ping_awaiting : M unit := ping_data ;; pending.

(** the [while True: sleep; ping] of [start_ping].  A cancellation that
    arrives during the sleep and one that arrives during the request that
    follows it leave the same fields and the same exception, so both are the
    entry [NetRaise CancelledError]. *)
Fixpoint ping_forever (tr : list net) : M unit :=
  match tr with
  | [] => ping_awaiting
  | o :: tr' => ping o ;; ping_forever tr'
  end.

(** [start_ping] *)
Definition start_ping (tr : list net) : M unit :=
  try_except
    (match tr with
     | [] => ping_awaiting
     | o :: tr' => ping o ;; ping_forever tr'
     end)
    (fun _ => true)            (* except CancelledError / except Exception *)
    (fun _ => ret tt).

(** [load_session_info], [save_session_info]: the placeholders of the source *)
Definition load_session_info : json := JObj [].
Definition save_session_info (data : json) : M unit := ret tt.

(** [render_profile_info]; returns [JNull] for Python's [None] *)
Definition render_profile_info (tr : list net) : M json :=
  try_except
    (let np_session_info := load_session_info in
     (if negb (Py.truthy np_session_info) then
        match tr with
        | [] => pending
        | o :: tr' =>
            let* response := call_api o in
            let* d := lift (Py.getitem response "data") in
            modify (set_account_info d) ;;
            let* acc := gets account_info in
            let* uid := lift (Py.get acc "uid") in
            if Py.truthy uid
            then save_session_info acc ;; start_ping tr'
            else handle_logout
        end
      else
        modify (set_account_info np_session_info) ;; start_ping tr) ;;
     ret JNull)
    is_Exception
    (fun _ => ret JNull).

(** ** The fleet loop of [main]

    A task is named by its position in [active_proxies].  What the event
    loop has delivered to a task so far is the list of results of its
    network awaits; [asyncio.wait] hands back, each round, tasks together
    with that list. *)

(** One turn of the loop of [main], as far as the event loop has driven it:
    the tasks [asyncio.wait] handed back as done, each with what was
    delivered to it, and whether the [asyncio.sleep(3)] that ends the turn has
    returned. *)
Record round : Type := mkRound {
  done_of : list (nat * list net);
  slept : bool
}.

Section Fleet.

Variable active_proxies : list string.
Variable uuids : nat -> string.

(** [task.result()] of the task created for [active_proxies[task]] *)
Definition task_result (task : nat) (io : list net) : outcome json :=
  match active_proxies !! task with
  | Some p =>
      match fst (render_profile_info io (init NP_TOKEN p (uuids task))) with
      | Pending => Raise InvalidStateError      (* result is not set *)
      | r => r
      end
  | None => Raise InvalidStateError
  end.

(** [for task in done: if task.result() is None: tasks.pop(task)] *)
Fixpoint for_done (done : list (nat * list net)) (tasks : gmap nat string)
  : outcome unit * gmap nat string :=
  match done with
  | [] => (Ok tt, tasks)
  | (task, io) :: done' =>
      match task_result task io with
      | Ok JNull =>
          match tasks !! task with
          | Some failed_proxy => for_done done' (delete task tasks)
          | None => (Raise KeyError, tasks)
          end
      | Ok _ => for_done done' tasks
      | Raise e => (Raise e, tasks)
      | Pending => (Pending, tasks)
      end
  end.

(** [while tasks: done, _ = await asyncio.wait(...); for ...; await
    asyncio.sleep(3)], run against the rounds the event loop has produced so
    far: it is pending in [asyncio.wait] when the rounds are used up, and
    pending in [asyncio.sleep] when the sleep of a round has not returned *)
Fixpoint main_loop (rounds : list round) (tasks : gmap nat string)
  : outcome unit * gmap nat string :=
  if decide (tasks = ∅) then (Ok tt, tasks) else
  match rounds with
  | [] => (Pending, tasks)
  | r :: rounds' =>
      match for_done (done_of r) tasks with
      | (Ok _, tasks') =>
          if slept r then main_loop rounds' tasks' else (Pending, tasks')
      | res => res
      end
  end.

End Fleet.

(** the task table [main] starts from: one task per proxy of [proxies[:100]] *)
Definition initial_tasks (proxies : list string) : gmap nat string :=
  list_to_map (imap (fun i p => (i, p)) (take 100 proxies)).

Definition main (proxies : list string) (uuids : nat -> string)
    (rounds : list round) : outcome unit * gmap nat string :=
  let active_proxies := take 100 proxies in
  main_loop active_proxies uuids rounds (initial_tasks proxies).

(** ** Fetching the proxy list

    A [str] is the [string] of the bytes of its UTF-8 encoding.  The line
    boundaries of [str.splitlines] are then seven single bytes and the
    encodings of U+0085, U+2028 and U+2029; in UTF-8 these byte sequences
    occur nowhere else. *)

(** [try: body  except aiohttp.ClientError: raise ValueError], without fields *)
Definition client_error_to_ValueError {A} (body : outcome A) : outcome A :=
  match body with
  | Raise e => if is_ClientError e then Raise ValueError else Raise e
  | r => r
  end.

(** What the network gives back to [session.get(url)]: an exception, or a
    response with its status and what [await resp.text()] would give. *)
Inductive http : Type :=
| HttpRaise (e : exn)
| HttpResp (status : Z) (text : outcome string).

(** [fetch_proxies], given what the network did *)
Definition fetch_proxies (o : http) : outcome string :=
  client_error_to_ValueError
    (match o with
     | HttpRaise e => Raise e
     | HttpResp status text =>
         if status =? 200 then text else Raise ValueError
     end).

(** [c] is the byte [n] *)
Definition byte_is (n : N) (c : ascii) : bool := (N_of_ascii c =? n)%N.

(** the line boundaries of [str.splitlines] that are one byte long: LF, VT,
    FF, CR, FS, GS, RS *)
Definition is_break1 (c : ascii) : bool :=
  byte_is 10 c || byte_is 11 c || byte_is 12 c || byte_is 13 c ||
  byte_is 28 c || byte_is 29 c || byte_is 30 c.

(** NEL, U+0085, is the bytes C2 85 *)
Definition is_NEL (c c1 : ascii) : bool := byte_is 194 c && byte_is 133 c1.

(** LS and PS, U+2028 and U+2029, are the bytes E2 80 A8 and E2 80 A9 *)
Definition is_LS_PS (c c1 c2 : ascii) : bool :=
  byte_is 226 c && byte_is 128 c1 && (byte_is 168 c2 || byte_is 169 c2).

(** a character that is no boundary goes in front of the line that follows *)
Definition keep (c : ascii) (lines : list string) : list string :=
  match lines with
  | [] => [String c EmptyString]
  | line :: lines' => String c line :: lines'
  end.

(** [str.splitlines()]: the lines without their boundaries, CR LF counting
    as one boundary, and no empty last line after a final boundary *)
Fixpoint splitlines (text : string) : list string :=
  match text with
  | EmptyString => []
  | String c rest =>
      if is_break1 c then
        match rest with
        | String c1 rest1 =>
            if byte_is 13 c && byte_is 10 c1
            then EmptyString :: splitlines rest1
            else EmptyString :: splitlines rest
        | EmptyString => [EmptyString]
        end
      else
        match rest with
        | String c1 rest1 =>
            if is_NEL c c1 then EmptyString :: splitlines rest1
            else
              match rest1 with
              | String c2 rest2 =>
                  if is_LS_PS c c1 c2
                  then EmptyString :: splitlines rest2
                  else keep c (splitlines rest)
              | EmptyString => keep c (splitlines rest)
              end
        | EmptyString => keep c (splitlines rest)
        end
  end.

(** [main] from its first line: fetch, split, then the tasks and the loop *)
Definition run_main (fetched : http) (uuids : nat -> string)
    (rounds : list round) : outcome unit * gmap nat string :=
  match fetch_proxies fetched with
  | Ok proxies_text =>
      let proxies := splitlines proxies_text in
      main proxies uuids rounds
  | Raise e => (Raise e, ∅)
  | Pending => (Pending, ∅)
  end.

(** * Vocabulary of the properties *)

(** ** Sample inputs *)

Definition ok_body (kv : list (string * json)) : net := NetBody (JObj kv).
Definition fresh : ProxyManager := init NP_TOKEN "P1" "uuid-1".
Definition auth_abc : net :=
  ok_body [("code", JInt 0); ("data", JObj [("uid", JStr "abc")])].
Definition code_403 : json := JObj [("code", JInt 403)].
Definition code_0 : json := JObj [("code", JInt 0)].
Definition code_500 : json := JObj [("code", JInt 500)].
Definition connected_abc : ProxyManager :=
  {| token_info := Some NP_TOKEN; proxy := "P1"; browser_id := "uuid-1";
     account_info := JObj [("uid", JStr "abc")];
     status_connect := CONNECTED; retries := 0 |}.

(** the fields after a logout, and after a failed heartbeat *)
Definition logged_out (s : ProxyManager) : ProxyManager :=
  {| token_info := None; proxy := proxy s; browser_id := browser_id s;
     account_info := JObj []; status_connect := NONE_CONNECTION;
     retries := retries s |}.

Definition failed_once (s : ProxyManager) : ProxyManager :=
  {| token_info := token_info s; proxy := proxy s; browser_id := browser_id s;
     account_info := account_info s; status_connect := DISCONNECTED;
     retries := retries s + 1 |}.

(** ** Readings of the specification's words *)

Module Resp.

(** the readings of the specification's three reasons for rejection *)
Definition is_number (c : json) : Prop :=
  match c with JInt _ | JFloat _ | JBool _ => True | _ => False end.

Definition negative (c : json) : Prop :=
  match c with
  | JInt z => z < 0
  | JFloat f => Py.float_lt0 f = true
  | _ => False
  end.

Definition falsy (resp : json) : Prop := Py.truthy resp = false.

Definition code_of (resp : json) : option json :=
  match resp with JObj kv => Py.dict_get "code" kv | _ => None end.

Definition lacks_code (resp : json) : Prop := code_of resp = None.

Definition negative_code (resp : json) : Prop :=
  exists c, code_of resp = Some c /\ negative c.

Definition rejected (resp : json) : Prop :=
  falsy resp \/ lacks_code resp \/ negative_code resp.

(** bodies on which no operation of [valid_resp] is applied to the wrong
    kind of value: the falsy ones, and the objects whose code, when there
    is one, is a number *)
Definition well_shaped (resp : json) : Prop :=
  falsy resp \/
  exists kv, resp = JObj kv /\
    forall c, Py.dict_get "code" kv = Some c -> is_number c.

End Resp.

Definition is_dict (v : json) : bool :=
  match v with JObj _ => true | _ => false end.

Definition text_code : json := JObj [("code", JStr "abc")].

(** the ways a heartbeat fails without being told to log out: the request
    raised (client error, timeout, undecodable body), the body did not pass
    [valid_resp], or it passed with a code that is neither 0 nor 403 *)
Inductive heartbeat_failure : net -> Prop :=
| transport_failure e :
    is_Exception e = true -> heartbeat_failure (NetRaise e)
| invalid_shape resp e :
    valid_resp resp = Raise e -> heartbeat_failure (NetBody resp)
| other_code resp c :
    valid_resp resp = Ok resp -> Py.getitem resp "code" = Ok c ->
    Py.eq_int c 0 = false -> Py.eq_int c 403 = false ->
    heartbeat_failure (NetBody resp).

(** the task was cancelled while it awaited this result *)
Definition is_cancel (o : net) : bool :=
  match o with NetRaise CancelledError => true | _ => false end.

Definition has_uid (s : ProxyManager) : Prop :=
  exists uid, Py.get (account_info s) "uid" = Ok uid /\ Py.truthy uid = true.

Definition has_credential (s : ProxyManager) : Prop :=
  exists t, token_info s = Some t /\ t <> "".

(** "Connected implies a non-empty uid and a non-empty credential" *)
Definition session_invariant (s : ProxyManager) : Prop :=
  status_connect s = CONNECTED -> has_uid s /\ has_credential s.

(** a line boundary starts the string *)
Definition boundary_at (s : string) : bool :=
  match s with
  | EmptyString => false
  | String c rest =>
      is_break1 c ||
      match rest with
      | String c1 rest1 =>
          is_NEL c c1 ||
          match rest1 with
          | String c2 _ => is_LS_PS c c1 c2
          | EmptyString => false
          end
      | EmptyString => false
      end
  end.

(** what follows the line boundary that starts the string *)
Definition after_boundary (s : string) : string :=
  match s with
  | EmptyString => EmptyString
  | String c rest =>
      match rest with
      | EmptyString => EmptyString
      | String c1 rest1 =>
          if is_break1 c then
            if byte_is 13 c && byte_is 10 c1 then rest1 else rest
          else if is_NEL c c1 then rest1
          else match rest1 with
               | String c2 rest2 => rest2
               | EmptyString => EmptyString
               end
      end
  end.

(** a line boundary occurs in the string *)
Fixpoint has_linebreak (s : string) : bool :=
  match s with
  | EmptyString => false
  | String c s' => boundary_at (String c s') || has_linebreak s'
  end.

(** the tasks named in a round of [asyncio.wait] *)
Definition done_tasks (done : list (nat * list net)) : list nat := map fst done.



(** the text made of the given lines, each followed by a line feed *)
Definition LF : ascii := ascii_of_N 10.

Fixpoint newline_terminated (lines : list string) : string :=
  match lines with
  | [] => EmptyString
  | line :: lines' => (line ++ String LF (newline_terminated lines'))%string
  end.

Ltac run_py :=
  unfold ping, ping_data, ping_awaiting, handle_ping_fail, handle_logout, call_api, save_session_info,
    try_except, bind, gets, lift, modify, ret, raise, pending; simpl.

(** * Properties *)

(** ** The embedding on small inputs *)

Example in_dict : Py.contains "code" code_403 = Ok true.
Proof. reflexivity. Qed.

Example in_text : Py.contains "code" (JStr "mycode") = Ok true.
Proof. reflexivity. Qed.

Example not_in_text : Py.contains "code" (JStr "cod e") = Ok false.
Proof. reflexivity. Qed.

Example valid_resp_403 : valid_resp code_403 = Ok code_403.
Proof. reflexivity. Qed.

Example valid_resp_negative : valid_resp (JObj [("code", JInt (-1))]) = Raise ValueError.
Proof. reflexivity. Qed.

Example valid_resp_empty : valid_resp (JObj []) = Raise ValueError.
Proof. reflexivity. Qed.

Example valid_resp_number : valid_resp (JInt 5) = Raise TypeError.
Proof. reflexivity. Qed.

Example valid_resp_float_403 :
  valid_resp (JObj [("code", JFloat (S754_finite false 403 0))]) =
    Ok (JObj [("code", JFloat (S754_finite false 403 0))]) /\
  Py.eq_int (JFloat (S754_finite false 403 0)) 403 = true.
Proof. split; reflexivity. Qed.

Example heartbeat_timeout :
  ping (NetRaise TimeoutError) connected_abc = (Ok tt, failed_once connected_abc).
Proof. reflexivity. Qed.

Example heartbeat_forbidden :
  ping (NetBody code_403) connected_abc =
    (Ok tt, logged_out (set_retries 1 connected_abc)).
Proof. reflexivity. Qed.

Example run_until_cancelled :
  render_profile_info [auth_abc; NetBody code_0; NetRaise CancelledError] fresh =
    (Ok JNull, connected_abc).
Proof. reflexivity. Qed.

Example run_no_uid :
  render_profile_info [ok_body [("code", JInt 0); ("data", JObj [])]] fresh =
    (Ok JNull, logged_out fresh).
Proof. reflexivity. Qed.

Example run_data_not_a_dict :
  render_profile_info [ok_body [("code", JInt 0); ("data", JStr "x")]] fresh =
    (Ok JNull, set_account_info (JStr "x") fresh).
Proof. reflexivity. Qed.

(** five proxies, the runs of two of them fail at once, three keep running *)
Example fleet_of_five :
  main ["P1"; "P2"; "P3"; "P4"; "P5"] (fun _ => "uuid")
       [mkRound [(1%nat, [NetRaise ClientError]); (3%nat, [NetRaise TimeoutError])] true] =
    (Pending, {[ 0%nat := "P1"; 2%nat := "P3"; 4%nat := "P5" ]}).
Proof. vm_compute. reflexivity. Qed.

(** ** Response validation *)

Lemma lt0_number c : Resp.is_number c -> exists b, Py.lt0 c = Ok b /\ (b = true <-> Resp.negative c).
Proof.
  destruct c as [ |b|z|f|s|l|kv]; simpl; try contradiction; intros _.
  - exists false. split; [reflexivity|]. split; [discriminate|contradiction].
  - exists (z <? 0). split; [reflexivity|]. apply Z.ltb_lt.
  - exists (Py.float_lt0 f). split; [reflexivity|]. reflexivity.
Qed.

Lemma lt0_inv c b : Py.lt0 c = Ok b -> Resp.is_number c /\ (b = true <-> Resp.negative c).
Proof.
  destruct c as [ |b'|z|f|s|l|kv]; simpl; try discriminate; intros [= <-].
  - split; [exact I|]. split; [discriminate|contradiction].
  - split; [exact I|]. apply Z.ltb_lt.
  - split; [exact I|]. reflexivity.
Qed.

Lemma dict_get_nonempty k kv c : Py.dict_get k kv = Some c -> Py.truthy (JObj kv) = true.
Proof. destruct kv; [discriminate|reflexivity]. Qed.

(** [valid_resp] on an object that has a code *)
Lemma valid_resp_obj kv c :
  Py.dict_get "code" kv = Some c ->
  valid_resp (JObj kv) =
    match Py.lt0 c with
    | Ok neg => if neg then Raise ValueError else Ok (JObj kv)
    | Raise e => Raise e
    | Pending => Pending
    end.
Proof.
  intros H. unfold valid_resp.
  rewrite (dict_get_nonempty _ _ _ H). simpl. rewrite H.
  rewrite bool_decide_eq_true_2 by eauto. reflexivity.
Qed.

(** whatever [valid_resp] returns is the body it was given, an object
    with a number for code that is not negative *)
Lemma valid_resp_Ok_inv resp r :
  valid_resp resp = Ok r ->
  r = resp /\ exists kv c,
    resp = JObj kv /\ Py.dict_get "code" kv = Some c /\ Py.lt0 c = Ok false.
Proof.
  unfold valid_resp. destruct (Py.truthy resp) eqn:Ht; simpl; [|discriminate].
  destruct resp as [ |b|z|f|s|l|kv]; simpl; try discriminate.
  - destruct (bool_decide _); simpl; discriminate.
  - destruct (existsb _ _); simpl; discriminate.
  - destruct (Py.dict_get "code" kv) as [c|] eqn:Hc.
    + rewrite bool_decide_eq_true_2 by eauto. simpl.
      destruct (Py.lt0 c) as [[|]|e|] eqn:Hl; try discriminate.
      intros [= <-]. eauto 10.
    + rewrite bool_decide_eq_false_2 by (intros [? ?]; discriminate). discriminate.
Qed.

Lemma valid_resp_falsy resp : Resp.falsy resp -> valid_resp resp = Raise ValueError.
Proof. unfold Resp.falsy, valid_resp. intros ->. reflexivity. Qed.

Lemma valid_resp_no_code kv :
  Py.dict_get "code" kv = None -> valid_resp (JObj kv) = Raise ValueError.
Proof.
  intros H. unfold valid_resp. destruct (Py.truthy (JObj kv)); simpl; [|reflexivity].
  rewrite H. rewrite bool_decide_eq_false_2 by (intros [? ?]; discriminate).
  reflexivity.
Qed.

(** a body that is not an object is never returned *)
Lemma valid_resp_not_obj resp :
  is_dict resp = false ->
  valid_resp resp = Raise ValueError \/ valid_resp resp = Raise TypeError.
Proof.
  intros Hn. unfold valid_resp.
  destruct (Py.truthy resp); simpl; [|by left].
  destruct resp as [ |b|z|f|s|l|kv]; simpl; try (by right).
  - destruct (bool_decide _); simpl; [by right|by left].
  - destruct (existsb _ _); simpl; [by right|by left].
Qed.

(** C7, as stated, fails: a body whose code is the text "abc" is present,
    has a code field and carries no negative code, yet [valid_resp] does not
    return it: the comparison [resp["code"] < 0] raises TypeError. *)
Lemma valid_resp_text_code_not_returned :
  ~ Resp.rejected text_code /\
  valid_resp text_code = Raise TypeError /\
  valid_resp text_code <> Ok text_code.
Proof.
  split; [|split; [reflexivity|discriminate]].
  unfold Resp.rejected, Resp.falsy, Resp.lacks_code, Resp.negative_code.
  intros [H|[H|[c [H Hc]]]]; try discriminate.
  simpl in H. injection H as <-. exact Hc.
Qed.

(** C7, amended: [valid_resp] never changes a body; it returns the body
    exactly when the body is an object whose code is a number (int, float or
    bool) that is not negative, so code 403 and every other non-negative code
    reach the caller; on a body that is falsy or an object whose code, if
    any, is a number, it raises ValueError exactly when the body is falsy,
    has no code or has a negative code, and returns the body otherwise; on
    every remaining body it raises ValueError or TypeError. *)
Theorem valid_resp_cases (resp : json) :
  (forall r, valid_resp resp = Ok r -> r = resp) /\
  (valid_resp resp = Ok resp <->
     exists c, Resp.code_of resp = Some c /\ Resp.is_number c /\ ~ Resp.negative c) /\
  (Resp.well_shaped resp ->
     (valid_resp resp = Raise ValueError <-> Resp.rejected resp) /\
     (~ Resp.rejected resp -> valid_resp resp = Ok resp)) /\
  (~ Resp.well_shaped resp ->
     valid_resp resp = Raise ValueError \/ valid_resp resp = Raise TypeError).
Proof.
  assert (Hret : valid_resp resp = Ok resp <->
     exists c, Resp.code_of resp = Some c /\ Resp.is_number c /\ ~ Resp.negative c).
  { split.
    - intros H. apply valid_resp_Ok_inv in H as [_ (kv & c & -> & Hc & Hl)].
      exists c. split; [exact Hc|]. apply lt0_inv in Hl as [Hn Hneg].
      split; [exact Hn|]. intros Hc'. apply Hneg in Hc'. discriminate.
    - intros (c & Hc & Hn & Hneg). destruct resp as [ |b|z|f|s|l|kv]; try discriminate.
      simpl in Hc. rewrite (valid_resp_obj _ _ Hc).
      destruct (lt0_number c Hn) as (b & -> & Hb).
      destruct b; [|reflexivity]. exfalso. apply Hneg, Hb. reflexivity. }
  split; [|split; [exact Hret|split]].
  - intros r H. by apply valid_resp_Ok_inv in H as [-> _].
  - intros [Hf|(kv & -> & Hnum)].
    + rewrite (valid_resp_falsy _ Hf). split.
      * split; [intros _; by left|reflexivity].
      * intros Hn. exfalso. apply Hn. by left.
    + destruct (Py.dict_get "code" kv) as [c|] eqn:Hc.
      * rewrite (valid_resp_obj _ _ Hc).
        destruct (lt0_number c (Hnum c eq_refl)) as (b & -> & Hb).
        assert (Htr : ~ Resp.falsy (JObj kv)).
        { unfold Resp.falsy. rewrite (dict_get_nonempty _ _ _ Hc). discriminate. }
        assert (Hrej : Resp.rejected (JObj kv) <-> Resp.negative c).
        { unfold Resp.rejected, Resp.lacks_code, Resp.negative_code. simpl. rewrite Hc.
          split.
          - intros [H|[H|(c' & [= <-] & H)]]; [contradiction|discriminate|exact H].
          - intros H. right; right. eauto. }
        destruct b.
        -- split; [|intros Hn; exfalso; apply Hn, Hrej, Hb; reflexivity].
           split; [intros _; apply Hrej, Hb; reflexivity|reflexivity].
        -- split; [|reflexivity].
           split; [discriminate|]. intros H. apply Hrej, Hb in H. discriminate.
      * rewrite (valid_resp_no_code _ Hc). split.
        -- split; [|reflexivity]. intros _. right; left. exact Hc.
        -- intros Hn. exfalso. apply Hn. right; left. exact Hc.
  - intros Hw. destruct resp as [ |b|z|f|s|l|kv];
      try (apply valid_resp_not_obj; reflexivity).
    destruct (Py.dict_get "code" kv) as [c|] eqn:Hc.
    + rewrite (valid_resp_obj _ _ Hc).
      destruct (Py.lt0 c) as [[|]|e|] eqn:Hl.
      * by left.
      * exfalso. apply Hw. right. exists kv. split; [reflexivity|].
        intros c' Hc'. rewrite Hc in Hc'. injection Hc' as <-.
        by apply lt0_inv in Hl as [? _].
      * destruct c; simpl in Hl; try discriminate; injection Hl as <-; by right.
      * destruct c; discriminate.
    + left. by apply valid_resp_no_code.
Qed.

(** ** One heartbeat *)

Lemma handle_logout_run s : handle_logout s = (Ok tt, logged_out s).
Proof. reflexivity. Qed.

Lemma handle_ping_fail_None s : handle_ping_fail JNull s = (Ok tt, failed_once s).
Proof. run_py. destruct (_ <? RETRIES); reflexivity. Qed.

Lemma handle_ping_fail_dict kv s :
  handle_ping_fail (JObj kv) s =
    if Py.truthy (JObj kv) && Py.eq_int (default JNull (Py.dict_get "code" kv)) 403
    then (Ok tt, logged_out (set_retries (retries s + 1) s))
    else (Ok tt, failed_once s).
Proof.
  run_py. destruct kv as [|kv0 kv']; simpl.
  - destruct (_ <? RETRIES); reflexivity.
  - destruct (Py.eq_int _ 403); [reflexivity|].
    destruct (_ <? RETRIES); reflexivity.
Qed.

Lemma eq_int_functional c a b : Py.eq_int c a = true -> a <> b -> Py.eq_int c b = false.
Proof.
  intros H Hab. destruct c as [ |x|z|f|s|l|kv]; simpl in *; try reflexivity.
  - apply Z.eqb_eq in H. apply Z.eqb_neq. congruence.
  - apply Z.eqb_eq in H. apply Z.eqb_neq. congruence.
  - destruct f as [sg|sg| |sg m e]; simpl in *; try discriminate.
    + apply Z.eqb_eq in H. apply Z.eqb_neq. congruence.
    + destruct (0 <=? e) eqn:He.
      * apply Z.eqb_eq in H. apply Z.eqb_neq. congruence.
      * apply Z.eqb_eq in H. apply Z.eqb_neq. rewrite H. intros Hm.
        apply Z.mul_cancel_r in Hm; [contradiction|].
        apply Z.leb_gt in He. apply Z.pow_nonzero; lia.
Qed.

(** from fields whose account_info is a dict the request is sent *)
Lemma ping_sent s o :
  is_dict (account_info s) = true ->
  ping o s =
    try_except
      (let* response := call_api o in
       let* c := lift (Py.getitem response "code") in
       if Py.eq_int c 0
       then modify (set_retries 0) ;; modify (set_status_connect CONNECTED)
       else handle_ping_fail response)
      is_Exception
      (fun _ => handle_ping_fail JNull) s.
Proof.
  intros Hd. unfold ping, ping_data, bind at 1 2, gets, lift.
  destruct (account_info s); try discriminate. reflexivity.
Qed.

(** a heartbeat whose request was answered by a validated body *)
Lemma ping_validated s resp c :
  is_dict (account_info s) = true ->
  valid_resp resp = Ok resp -> Py.getitem resp "code" = Ok c ->
  ping (NetBody resp) s =
    if Py.eq_int c 0
    then (Ok tt, set_status_connect CONNECTED (set_retries 0 s))
    else if Py.eq_int c 403
         then (Ok tt, logged_out (set_retries (retries s + 1) s))
         else (Ok tt, failed_once s).
Proof.
  intros Hd Hv Hc. rewrite (ping_sent s _ Hd).
  apply valid_resp_Ok_inv in Hv as Hinv. destruct Hinv as [_ (kv & c' & -> & Hkv & _)].
  simpl in Hc. rewrite Hkv in Hc. injection Hc as ->.
  unfold try_except, bind at 1, call_api, lift at 1.
  rewrite Hv. unfold bind at 1, lift. simpl. rewrite Hkv.
  destruct (Py.eq_int c 0) eqn:H0; [reflexivity|].
  rewrite handle_ping_fail_dict, (dict_get_nonempty _ _ _ Hkv), Hkv.
  simpl. destruct (Py.eq_int c 403); reflexivity.
Qed.

(** from fields whose account_info is not a dict no request is sent:
    building its data raises before the [try] *)
Lemma ping_not_sent s o :
  is_dict (account_info s) = false -> ping o s = (Raise AttributeError, s).
Proof.
  intros Hd. unfold ping, ping_data, bind at 1 2, gets, lift.
  destruct (account_info s); try reflexivity. discriminate.
Qed.

(** a heartbeat whose request ended in an exception of class [Exception] *)
Lemma ping_raised s (e : exn) (o : net) :
  is_dict (account_info s) = true ->
  is_Exception e = true ->
  call_api o s = (Raise e, s) ->
  ping o s = (Ok tt, failed_once s).
Proof.
  intros Hd He Hcall. rewrite (ping_sent s o Hd).
  unfold try_except, bind at 1. rewrite Hcall, He. apply handle_ping_fail_None.
Qed.

Lemma valid_resp_raises resp e :
  valid_resp resp = Raise e -> e = ValueError \/ e = TypeError.
Proof.
  intros H. destruct resp as [ |b|z|f|s|l|kv];
    try (match type of H with valid_resp ?r = _ =>
           destruct (valid_resp_not_obj r eq_refl) as [H'|H'];
           rewrite H' in H; injection H as <-; by auto
         end).
  destruct (Py.dict_get "code" kv) as [c|] eqn:Hc.
  - rewrite (valid_resp_obj _ _ Hc) in H.
    destruct c as [ |b|z|f|s|l|kv']; simpl in H;
      try (injection H as <-; by right).
    + discriminate.
    + destruct (z <? 0); [injection H as <-; by left|discriminate].
    + destruct (Py.float_lt0 f); [injection H as <-; by left|discriminate].
  - rewrite (valid_resp_no_code _ Hc) in H. injection H as <-. by left.
Qed.

Lemma ping_success_state s resp c :
  is_dict (account_info s) = true ->
  valid_resp resp = Ok resp -> Py.getitem resp "code" = Ok c ->
  Py.eq_int c 0 = true ->
  ping (NetBody resp) s = (Ok tt, set_status_connect CONNECTED (set_retries 0 s)).
Proof. intros Hd Hv Hc H0. by rewrite (ping_validated s resp c Hd Hv Hc), H0. Qed.

(** C2: whatever the fields and the failure count, a validated body whose
    code equals 403 makes [handle_ping_fail] log out: the credential is
    cleared, account_info is the empty dict and the state is NONE_CONNECTION
    (the failure count has been incremented on the way); and so does the
    heartbeat that received that body.  A heartbeat sends its request, and so
    receives a response, only when account_info is a dict; the heartbeat loop
    never runs from other fields (see [loop_account_is_dict]). *)
Theorem ping_forbidden_logs_out (s : ProxyManager) (resp c : json) :
  valid_resp resp = Ok resp ->
  Py.getitem resp "code" = Ok c ->
  Py.eq_int c 403 = true ->
  handle_ping_fail resp s =
    (Ok tt, {| token_info := None; proxy := proxy s; browser_id := browser_id s;
               account_info := JObj []; status_connect := NONE_CONNECTION;
               retries := retries s + 1 |}) /\
  (is_dict (account_info s) = true ->
   ping (NetBody resp) s =
    (Ok tt, {| token_info := None; proxy := proxy s; browser_id := browser_id s;
               account_info := JObj []; status_connect := NONE_CONNECTION;
               retries := retries s + 1 |})).
Proof.
  intros Hv Hc H403. split.
  - destruct (valid_resp_Ok_inv _ _ Hv) as [_ (kv & c' & -> & Hkv & _)].
    simpl in Hc. rewrite Hkv in Hc. injection Hc as ->.
    rewrite handle_ping_fail_dict, (dict_get_nonempty _ _ _ Hkv), Hkv.
    simpl. rewrite H403. reflexivity.
  - intros Hd. rewrite (ping_validated s resp c Hd Hv Hc).
    rewrite (eq_int_functional c 403 0 H403) by discriminate.
    rewrite H403. reflexivity.
Qed.

Lemma ping_forbidden_logs_out_witness :
  handle_ping_fail code_403 (set_retries 75 connected_abc) =
    (Ok tt, {| token_info := None; proxy := "P1"; browser_id := "uuid-1";
               account_info := JObj []; status_connect := NONE_CONNECTION;
               retries := 76 |}) /\
  ping (NetBody code_403) (set_retries 75 connected_abc) =
    (Ok tt, {| token_info := None; proxy := "P1"; browser_id := "uuid-1";
               account_info := JObj []; status_connect := NONE_CONNECTION;
               retries := 76 |}).
Proof.
  destruct (ping_forbidden_logs_out (set_retries 75 connected_abc) code_403 (JInt 403)
              eq_refl eq_refl eq_refl) as [H1 H2].
  split; [exact H1|exact (H2 eq_refl)].
Defined.

(** C3: whatever the fields and the prior failure count, at or above the
    ceiling of 60 included, a heartbeat answered by a validated body whose
    code equals 0 sets retries to 0 and the state to CONNECTED, and touches
    nothing else.  (The heartbeat has sent its request: account_info is a
    dict.) *)
Theorem ping_success_resets (s : ProxyManager) (resp c : json) :
  is_dict (account_info s) = true ->
  valid_resp resp = Ok resp ->
  Py.getitem resp "code" = Ok c ->
  Py.eq_int c 0 = true ->
  ping (NetBody resp) s =
    (Ok tt, {| token_info := token_info s; proxy := proxy s;
               browser_id := browser_id s; account_info := account_info s;
               status_connect := CONNECTED; retries := 0 |}).
Proof.
  intros Hd Hv Hc H0. rewrite (ping_validated s resp c Hd Hv Hc), H0. reflexivity.
Qed.

Lemma ping_success_resets_witness :
  ping (NetBody code_0) (set_status_connect DISCONNECTED (set_retries 75 connected_abc)) =
    (Ok tt, connected_abc).
Proof.
  apply (ping_success_resets
           (set_status_connect DISCONNECTED (set_retries 75 connected_abc))
           code_0 (JInt 0)); reflexivity.
Defined.

(** C4: for every failure count r, below, at or above the ceiling RETRIES =
    60, [handle_ping_fail] on a failure that is not a 403 (no response, or a
    dict whose code is not 403) ends in the same way: the count becomes r + 1,
    the state DISCONNECTED, and the credential and account_info are kept, so
    no logout happens at the ceiling; both branches of the comparison with
    RETRIES give this result. *)
Theorem handle_ping_fail_ignores_ceiling (s : ProxyManager) (r : Z) (response : json) :
  response = JNull \/
  (exists kv, response = JObj kv /\
     Py.eq_int (default JNull (Py.dict_get "code" kv)) 403 = false) ->
  handle_ping_fail response (set_retries r s) =
    (Ok tt, {| token_info := token_info s; proxy := proxy s;
               browser_id := browser_id s; account_info := account_info s;
               status_connect := DISCONNECTED; retries := r + 1 |}).
Proof.
  intros [->|(kv & -> & H)].
  - apply handle_ping_fail_None.
  - rewrite handle_ping_fail_dict, H, andb_false_r. reflexivity.
Qed.

Lemma handle_ping_fail_ignores_ceiling_witness :
  handle_ping_fail code_500 (set_retries 58 connected_abc) =
    (Ok tt, set_status_connect DISCONNECTED (set_retries 59 connected_abc)) /\
  handle_ping_fail code_500 (set_retries 59 connected_abc) =
    (Ok tt, set_status_connect DISCONNECTED (set_retries 60 connected_abc)) /\
  handle_ping_fail JNull (set_retries 1000 connected_abc) =
    (Ok tt, set_status_connect DISCONNECTED (set_retries 1001 connected_abc)).
Proof.
  split; [|split].
  - apply (handle_ping_fail_ignores_ceiling connected_abc 58 code_500).
    right. exists [("code", JInt 500)]. split; reflexivity.
  - apply (handle_ping_fail_ignores_ceiling connected_abc 59 code_500).
    right. exists [("code", JInt 500)]. split; reflexivity.
  - apply (handle_ping_fail_ignores_ceiling connected_abc 1000 JNull).
    left. reflexivity.
Defined.

(** C6: a heartbeat that fails by a transport error, a timeout, a body that
    does not pass validation, or a validated code other than 0 and 403 adds
    exactly 1 to retries and sets the state to DISCONNECTED; token_info,
    account_info, browser_id (and proxy) are unchanged.  (The heartbeat has
    sent its request: account_info is a dict.) *)
Theorem ping_failure_frame (s : ProxyManager) (o : net) :
  is_dict (account_info s) = true ->
  heartbeat_failure o ->
  ping o s =
    (Ok tt, {| token_info := token_info s; proxy := proxy s;
               browser_id := browser_id s; account_info := account_info s;
               status_connect := DISCONNECTED; retries := retries s + 1 |}).
Proof.
  intros Hd Hf. destruct Hf as [e He|resp e Hr|resp c Hv Hc H0 H403].
  - destruct (is_ClientError e) eqn:Hce.
    + apply (ping_raised s ValueError); [exact Hd|reflexivity|].
      unfold call_api. rewrite Hce. reflexivity.
    + apply (ping_raised s e); [exact Hd|exact He|].
      unfold call_api. rewrite Hce. reflexivity.
  - apply (ping_raised s e); [exact Hd| |].
    + destruct (valid_resp_raises _ _ Hr) as [-> | ->]; reflexivity.
    + unfold call_api, lift. rewrite Hr. reflexivity.
  - rewrite (ping_validated s resp c Hd Hv Hc), H0, H403. reflexivity.
Qed.

Lemma ping_failure_frame_witness :
  ping (NetRaise TimeoutError) connected_abc =
    (Ok tt, {| token_info := Some NP_TOKEN; proxy := "P1"; browser_id := "uuid-1";
               account_info := JObj [("uid", JStr "abc")];
               status_connect := DISCONNECTED; retries := 1 |}).
Proof.
  apply (ping_failure_frame connected_abc (NetRaise TimeoutError));
    [reflexivity|apply transport_failure; reflexivity].
Defined.

(** C9: logging out twice leaves exactly what logging out once leaves: no
    credential, the empty account_info, the state NONE_CONNECTION, and the
    other fields as they were. *)
Theorem handle_logout_idempotent (s : ProxyManager) :
  (handle_logout ;; handle_logout) s = handle_logout s /\
  handle_logout s =
    (Ok tt, {| token_info := None; proxy := proxy s; browser_id := browser_id s;
               account_info := JObj []; status_connect := NONE_CONNECTION;
               retries := retries s |}).
Proof. split; reflexivity. Qed.

(** ** The heartbeat loop and the run of an agent *)

Lemma valid_resp_total resp :
  valid_resp resp = Ok resp \/
  valid_resp resp = Raise ValueError \/ valid_resp resp = Raise TypeError.
Proof.
  destruct resp as [ |b|z|f|s|l|kv];
    try (right; apply valid_resp_not_obj; reflexivity).
  destruct (Py.dict_get "code" kv) as [c|] eqn:Hc.
  - rewrite (valid_resp_obj _ _ Hc).
    destruct c as [ |b|z|f|s|l|kv']; simpl; auto.
    + destruct (z <? 0); auto.
    + destruct (Py.float_lt0 f); auto.
  - right; left. by apply valid_resp_no_code.
Qed.

(** what [call_api] does: it never suspends here, never touches the fields,
    and raises CancelledError only when the task was cancelled *)
Lemma call_api_cases o s :
  (exists resp, o = NetBody resp /\ valid_resp resp = Ok resp /\
                call_api o s = (Ok resp, s)) \/
  (exists e, is_Exception e = true /\ call_api o s = (Raise e, s)) \/
  (o = NetRaise CancelledError /\ call_api o s = (Raise CancelledError, s)).
Proof.
  destruct o as [resp|e]; simpl.
  - unfold lift. destruct (valid_resp_total resp) as [H|[H|H]]; rewrite H.
    + left. eauto.
    + right; left. by exists ValueError.
    + right; left. by exists TypeError.
  - destruct e; simpl; try (right; left; eexists; split; [|reflexivity]; reflexivity).
    right; right. split; reflexivity.
Qed.

(** one heartbeat, from fields whose account_info is a dict: either the
    task was cancelled during it and nothing changed, or it returned after
    one of the three updates *)
Lemma ping_cases o s :
  is_dict (account_info s) = true ->
  (o = NetRaise CancelledError /\ ping o s = (Raise CancelledError, s)) \/
  (o <> NetRaise CancelledError /\
   exists s', ping o s = (Ok tt, s') /\
     (s' = set_status_connect CONNECTED (set_retries 0 s) \/
      s' = logged_out (set_retries (retries s + 1) s) \/
      s' = failed_once s)).
Proof.
  intros Hd.
  destruct (call_api_cases o s) as [(resp & -> & Hv & _)|[(e & He & Hc)|[-> Hc]]].
  - right. split; [discriminate|].
    destruct (valid_resp_Ok_inv _ _ Hv) as [_ (kv & c & -> & Hkv & _)].
    assert (Hc : Py.getitem (JObj kv) "code" = Ok c) by (simpl; by rewrite Hkv).
    rewrite (ping_validated s _ c Hd Hv Hc).
    destruct (Py.eq_int c 0); [eauto|]. destruct (Py.eq_int c 403); eauto 6.
  - right. split.
    + intros ->. simpl in Hc. injection Hc as <-. discriminate.
    + rewrite (ping_raised s e o Hd He Hc). eauto 6.
  - left. split; [reflexivity|].
    rewrite (ping_sent s _ Hd). reflexivity.
Qed.

Lemma start_ping_unfold tr s :
  start_ping tr s =
    match ping_forever tr s with
    | (Raise _, s') => (Ok tt, s')
    | r => r
    end.
Proof. unfold start_ping, try_except. destruct tr; reflexivity. Qed.

(** a property kept by every heartbeat is kept by the loop *)
Lemma ping_forever_invariant (P : ProxyManager -> Prop) :
  (forall o s, P s -> P (snd (ping o s))) ->
  forall tr s, P s -> P (snd (ping_forever tr s)).
Proof.
  intros Hstep tr. induction tr as [|o tr IH]; intros s Hs.
  { simpl. unfold ping_awaiting, ping_data, bind, gets, lift, pending.
    by destruct (Py.get (account_info s) "uid"). }
  simpl. unfold bind. specialize (Hstep o s Hs).
  destruct (ping o s) as [[[]|e|] s']; simpl in *; auto.
Qed.

Lemma is_cancel_true o : is_cancel o = true <-> o = NetRaise CancelledError.
Proof.
  split; [|intros ->; reflexivity].
  destruct o as [?|[]]; simpl; congruence.
Qed.

(** the loop ends only by cancellation: it is pending as long as no
    cancellation is in the trace, and raises CancelledError at the first *)
Lemma ping_forever_outcome tr s :
  is_dict (account_info s) = true ->
  fst (ping_forever tr s) =
    if existsb is_cancel tr then Raise CancelledError else Pending.
Proof.
  revert s. induction tr as [|o tr IH]; intros s Hd.
  - simpl. unfold ping_awaiting, ping_data, bind, gets, lift, pending.
    destruct (account_info s); try discriminate. reflexivity.
  - simpl. unfold bind.
    destruct (ping_cases o s Hd) as [[-> Hp]|[Hne (s' & Hp & Hs')]]; rewrite Hp; simpl.
    + reflexivity.
    + rewrite IH.
      * destruct (is_cancel o) eqn:Hc; [|reflexivity].
        by apply is_cancel_true in Hc.
      * destruct Hs' as [->|[->| ->]]; simpl; auto.
Qed.

Lemma start_ping_outcome tr s :
  is_dict (account_info s) = true ->
  fst (start_ping tr s) =
    if existsb is_cancel tr then Ok tt else Pending.
Proof.
  intros Hd. rewrite start_ping_unfold.
  pose proof (ping_forever_outcome tr s Hd) as H.
  destruct (ping_forever tr s) as [r s']; simpl in *. subst r.
  destruct (existsb _ _); reflexivity.
Qed.

Lemma start_ping_state tr s : snd (start_ping tr s) = snd (ping_forever tr s).
Proof. rewrite start_ping_unfold. by destruct (ping_forever tr s) as [[| |] ?]. Qed.

Lemma getitem_raises v k e : Py.getitem v k = Raise e -> is_Exception e = true.
Proof.
  destruct v as [ | | | | | |kv]; simpl; try (by intros [= <-]).
  destruct (Py.dict_get k kv); [discriminate|by intros [= <-]].
Qed.

Lemma getitem_not_pending v k : Py.getitem v k <> Pending.
Proof.
  destruct v as [ | | | | | |kv]; simpl; try discriminate.
  destruct (Py.dict_get k kv); discriminate.
Qed.

Lemma get_cases v k :
  (is_dict v = true /\ exists x, Py.get v k = Ok x) \/
  (is_dict v = false /\ Py.get v k = Raise AttributeError).
Proof. destruct v; simpl; eauto. Qed.

(** the run of an agent whose authentication request got the result [o] and
    whose heartbeats got the results [tr] *)
Lemma render_profile_info_cons o tr s :
  render_profile_info (o :: tr) s =
    match fst (call_api o s) with
    | Ok response =>
        match Py.getitem response "data" with
        | Ok d =>
            match Py.get d "uid" with
            | Ok uid =>
                if Py.truthy uid
                then (if existsb is_cancel tr then Ok JNull else Pending,
                      snd (ping_forever tr (set_account_info d s)))
                else (Ok JNull, logged_out s)
            | _ => (Ok JNull, set_account_info d s)
            end
        | _ => (Ok JNull, s)
        end
    | Raise e => if is_Exception e then (Ok JNull, s) else (Raise e, s)
    | Pending => (Pending, s)
    end.
Proof.
  unfold render_profile_info, try_except. simpl. unfold bind at 1 2.
  destruct (call_api_cases o s) as [(resp & -> & Hv & Hc)|[(e & He & Hc)|[-> Hc]]];
    rewrite Hc; simpl; [|by rewrite He|reflexivity].
  unfold bind at 1, lift at 1.
  destruct (Py.getitem resp "data") as [d|e|] eqn:Hd.
  - unfold bind at 1, modify at 1. unfold bind at 1, gets at 1. simpl.
    unfold bind at 1, lift at 1.
    destruct (get_cases d "uid") as [[Hdict (uid & Hu)]|[Hdict Hu]]; rewrite Hu.
    + destruct (Py.truthy uid).
      * unfold bind at 1, save_session_info, ret at 1.
        pose proof (start_ping_outcome tr (set_account_info d s) Hdict) as Ho.
        pose proof (start_ping_state tr (set_account_info d s)) as Hs.
        destruct (start_ping tr (set_account_info d s)) as [r s2]. simpl in *.
        subst r s2. destruct (existsb is_cancel tr); reflexivity.
      * reflexivity.
    + reflexivity.
  - by rewrite (getitem_raises _ _ _ Hd).
  - by destruct (getitem_not_pending _ _ Hd).
Qed.

(** whenever a run is suspended in the heartbeat loop, account_info is a
    dict: the next heartbeat can build and send its request *)
Lemma loop_account_is_dict o tr s :
  fst (render_profile_info (o :: tr) s) = Pending ->
  is_dict (account_info (snd (render_profile_info (o :: tr) s))) = true.
Proof.
  rewrite render_profile_info_cons.
  destruct (call_api_cases o s) as [(resp & -> & Hv & Hc)|[(e & He & Hc)|[-> Hc]]];
    rewrite Hc; simpl; [|by rewrite He|discriminate].
  destruct (Py.getitem resp "data") as [d|e|]; try discriminate.
  destruct (get_cases d "uid") as [[Hdict (uid & Hu)]|[Hdict Hu]]; rewrite Hu;
    [|discriminate].
  destruct (Py.truthy uid); [|discriminate]. intros _. simpl.
  apply (ping_forever_invariant (fun s => is_dict (account_info s) = true));
    [|exact Hdict].
  clear. intros o s Hd.
  destruct (ping_cases o s Hd) as [[_ ->]|[_ (s' & -> & [->|[->| ->]])]]; simpl; auto.
Qed.

Lemma render_profile_info_nil s : render_profile_info [] s = (Pending, s).
Proof. reflexivity. Qed.

(** ** The session invariant of the specification *)

(** As long as no logout has cleared the credential, the invariant holds in
    every state an agent run goes through. *)
Lemma session_invariant_until_logout (tr : list net) (tok p u : string) :
  tok <> "" ->
  token_info (snd (render_profile_info tr (init tok p u))) <> None ->
  session_invariant (snd (render_profile_info tr (init tok p u))).
Proof.
  intros Htok. set (s0 := init tok p u).
  destruct tr as [|o tr]; [intros _ H; discriminate H|].
  rewrite render_profile_info_cons.
  destruct (fst (call_api o s0)) as [resp|e|]; [| |intros _ H; discriminate H].
  2:{ destruct (is_Exception e); intros _ H; discriminate H. }
  destruct (Py.getitem resp "data") as [d|e|]; try (intros _ H; discriminate H).
  destruct (Py.get d "uid") as [uid|e|] eqn:Hu; try (intros _ H; discriminate H).
  destruct (Py.truthy uid) eqn:Ht; [|intros _ H; discriminate H].
  simpl.
  pose (P := fun s : ProxyManager =>
      is_dict (account_info s) = true /\
      (token_info s = None \/ (token_info s = Some tok /\ has_uid s))).
  assert (HP : P (snd (ping_forever tr (set_account_info d s0)))).
  { apply ping_forever_invariant.
    - clear. intros o s [Hd Hs].
      destruct (ping_cases o s Hd) as [[_ ->]|[_ (s' & -> & [->|[->| ->]])]];
        simpl; split; auto.
    - split; simpl.
      + destruct d; simpl in Hu; try discriminate; reflexivity.
      + right. split; [reflexivity|]. exists uid. auto. }
  destruct HP as [_ [Hnone|[Hsome Huid]]]; [contradiction|].
  intros _ _. split; [exact Huid|]. exists tok. auto.
Qed.

(** C1: the invariant is broken by the run in which the authentication
    succeeds, one heartbeat is answered with code 403 (logout) and the next
    one with code 0: the loop is still running, the state is CONNECTED, and
    both the credential and account_info are cleared. *)
Theorem connected_after_logout :
  render_profile_info [auth_abc; NetBody code_403; NetBody code_0] fresh =
    (Pending, {| token_info := None; proxy := "P1"; browser_id := "uuid-1";
                 account_info := JObj []; status_connect := CONNECTED;
                 retries := 0 |}) /\
  ~ session_invariant
      (snd (render_profile_info [auth_abc; NetBody code_403; NetBody code_0] fresh)).
Proof.
  split; [reflexivity|].
  intros H. destruct (H eq_refl) as [_ (t & Ht & _)]. discriminate Ht.
Qed.

(** C5, as stated, fails: when the authentication call has returned
    {code:0, data:{uid:"abc"}} the uid is stored but the state is still
    NONE_CONNECTION, and it becomes DISCONNECTED, not CONNECTED, if the first
    heartbeat times out. *)
Lemma authenticated_not_yet_connected :
  render_profile_info [auth_abc] fresh =
    (Pending, {| token_info := Some NP_TOKEN; proxy := "P1"; browser_id := "uuid-1";
                 account_info := JObj [("uid", JStr "abc")];
                 status_connect := NONE_CONNECTION; retries := 0 |}) /\
  status_connect (snd (render_profile_info [auth_abc] fresh)) <> CONNECTED /\
  status_connect
    (snd (render_profile_info [auth_abc; NetRaise TimeoutError] fresh)) <> CONNECTED.
Proof. repeat split; discriminate. Qed.

(** C5, amended: for a fresh agent whose authentication call returns
    {code:0, data:{uid:"abc"}}, account_info.uid is "abc" as soon as the call
    has returned, with the state still NONE_CONNECTION; the state becomes
    CONNECTED when the heartbeat that follows is answered by a validated body
    with code 0. *)
Theorem authenticate_then_heartbeat (tok p u : string) (resp c : json) :
  valid_resp resp = Ok resp ->
  Py.getitem resp "code" = Ok c ->
  Py.eq_int c 0 = true ->
  render_profile_info [auth_abc] (init tok p u) =
    (Pending, {| token_info := Some tok; proxy := p; browser_id := u;
                 account_info := JObj [("uid", JStr "abc")];
                 status_connect := NONE_CONNECTION; retries := 0 |}) /\
  render_profile_info [auth_abc; NetBody resp] (init tok p u) =
    (Pending, {| token_info := Some tok; proxy := p; browser_id := u;
                 account_info := JObj [("uid", JStr "abc")];
                 status_connect := CONNECTED; retries := 0 |}).
Proof.
  intros Hv Hc H0. split; [reflexivity|].
  rewrite render_profile_info_cons. simpl.
  unfold bind.
  rewrite (ping_success_state (set_account_info (JObj [("uid", JStr "abc")]) (init tok p u))
             resp c eq_refl Hv Hc H0).
  reflexivity.
Qed.

Lemma authenticate_then_heartbeat_witness :
  render_profile_info [auth_abc] fresh =
    (Pending, set_account_info (JObj [("uid", JStr "abc")]) fresh) /\
  render_profile_info [auth_abc; NetBody code_0] fresh = (Pending, connected_abc).
Proof.
  apply (authenticate_then_heartbeat NP_TOKEN "P1" "uuid-1" code_0 (JInt 0));
    reflexivity.
Defined.

(** ** What a run returns *)

(** C10, as stated, fails: a task cancelled while its authentication
    request is awaited does not return None; CancelledError passes through
    [except Exception] and leaves [render_profile_info]. *)
Lemma cancelled_during_authentication :
  render_profile_info [NetRaise CancelledError] fresh = (Raise CancelledError, fresh) /\
  fst (render_profile_info [NetRaise CancelledError] fresh) <> Ok JNull.
Proof. split; [reflexivity|discriminate]. Qed.

(** how a run whose authentication request got a result stands *)
Lemma render_profile_info_outcomes o tr s :
  (fst (render_profile_info (o :: tr) s) = Pending /\
     existsb is_cancel tr = false /\ o <> NetRaise CancelledError) \/
  (fst (render_profile_info (o :: tr) s) = Ok JNull /\ o <> NetRaise CancelledError) \/
  (fst (render_profile_info (o :: tr) s) = Raise CancelledError /\
     o = NetRaise CancelledError).
Proof.
  rewrite render_profile_info_cons.
  destruct (call_api_cases o s) as [(resp & -> & Hv & Hc)|[(e & He & Hc)|[-> Hc]]];
    rewrite Hc; simpl.
  - destruct (Py.getitem resp "data") as [d|e|]; simpl;
      try (right; left; split; [reflexivity|discriminate]).
    destruct (Py.get d "uid") as [uid|e|]; simpl;
      try (right; left; split; [reflexivity|discriminate]).
    destruct (Py.truthy uid); simpl;
      try (right; left; split; [reflexivity|discriminate]).
    destruct (existsb is_cancel tr); simpl.
    + right; left; split; [reflexivity|discriminate].
    + left. repeat split; discriminate.
  - rewrite He. right; left. split; [reflexivity|].
    intros ->. simpl in Hc. injection Hc as <-. discriminate.
  - right; right. split; reflexivity.
Qed.

(** [task.result()] either returns None or raises *)
Lemma task_result_cases active_proxies uuids task io :
  task_result active_proxies uuids task io = Ok JNull \/
  exists e, task_result active_proxies uuids task io = Raise e.
Proof.
  unfold task_result. destruct (active_proxies !! task) as [p|]; [|eauto].
  destruct io as [|o tr]; [rewrite render_profile_info_nil; simpl; eauto|].
  destruct (render_profile_info_outcomes o tr (init NP_TOKEN p (uuids task)))
    as [(H & _)|[(H & _)|(H & _)]]; rewrite H; eauto.
Qed.

(** C10, amended: a run that has ended has returned None or, in the single
    case of a cancellation delivered during the authentication request, has
    raised CancelledError; it returns None when the authentication raises an
    exception of class Exception (a transport or protocol error), when the
    authentication response carries no usable uid (after logging out), and
    when the heartbeat loop is ended by a cancellation; so [task.result()] of
    a task of [main] is None whenever it returns. *)
Theorem render_profile_info_result (o : net) (tr : list net) (s : ProxyManager) :
  (fst (render_profile_info (o :: tr) s) = Pending \/
   fst (render_profile_info (o :: tr) s) = Ok JNull \/
   fst (render_profile_info (o :: tr) s) = Raise CancelledError) /\
  (fst (render_profile_info (o :: tr) s) = Raise CancelledError <->
   o = NetRaise CancelledError) /\
  (forall e, fst (call_api o s) = Raise e -> is_Exception e = true ->
     render_profile_info (o :: tr) s = (Ok JNull, s)) /\
  (forall resp d uid,
     fst (call_api o s) = Ok resp -> Py.getitem resp "data" = Ok d ->
     Py.get d "uid" = Ok uid -> Py.truthy uid = false ->
     render_profile_info (o :: tr) s = (Ok JNull, logged_out s)) /\
  (o <> NetRaise CancelledError -> existsb is_cancel tr = true ->
     fst (render_profile_info (o :: tr) s) = Ok JNull) /\
  (forall active_proxies uuids task io v,
     task_result active_proxies uuids task io = Ok v -> v = JNull).
Proof.
  pose proof (render_profile_info_outcomes o tr s) as Hcases.
  split; [|split; [|split; [|split; [|split]]]].
  - destruct Hcases as [(H & _)|[(H & _)|(H & _)]]; auto.
  - split.
    + intros H. destruct Hcases as [(H' & _)|[(H' & _)|(_ & H')]];
        [rewrite H' in H; discriminate|rewrite H' in H; discriminate|exact H'].
    + intros ->. reflexivity.
  - intros e He Hexc. rewrite render_profile_info_cons, He, Hexc. reflexivity.
  - intros resp d uid Hr Hd Hu Ht.
    rewrite render_profile_info_cons, Hr, Hd, Hu, Ht. reflexivity.
  - intros Hne Hcancel.
    destruct Hcases as [(_ & H & _)|[(H & _)|(_ & H)]];
      [rewrite H in Hcancel; discriminate|exact H|contradiction].
  - intros active_proxies uuids task io v Hv.
    destruct (task_result_cases active_proxies uuids task io) as [H|[e H]];
      rewrite H in Hv; congruence.
Qed.

(** ** The fleet loop *)

Section FleetProperties.

Variable active_proxies : list string.
Variable uuids : nat -> string.

Lemma for_done_subseteq done (tasks : gmap nat string) :
  snd (for_done active_proxies uuids done tasks) ⊆ tasks.
Proof.
  revert tasks. induction done as [|[task io] done IH]; intros tasks; simpl; [done|].
  destruct (task_result active_proxies uuids task io) as [[ | | | | | | ]|e|]; simpl;
    try done; try apply IH.
  destruct (tasks !! task); simpl; [|done].
  etrans; [apply IH|apply delete_subseteq].
Qed.

Lemma main_loop_subseteq rounds (tasks : gmap nat string) :
  snd (main_loop active_proxies uuids rounds tasks) ⊆ tasks.
Proof.
  revert tasks. induction rounds as [|r rounds IH]; intros tasks; simpl.
  - by destruct (decide (tasks = ∅)).
  - destruct (decide (tasks = ∅)); [done|].
    pose proof (for_done_subseteq (done_of r) tasks) as Hd.
    destruct (for_done active_proxies uuids (done_of r) tasks) as [[[]|e|] tasks'];
      simpl in *; [|done|done].
    destruct (slept r); [|exact Hd].
    etrans; [apply IH|exact Hd].
Qed.


(** after a pass of the [for] loop that ran to its end, no task of [done]
    whose [result()] returned is left in the table *)
Lemma for_done_removes done (tasks tasks' : gmap nat string) task io v :
  for_done active_proxies uuids done tasks = (Ok tt, tasks') ->
  (task, io) ∈ done ->
  task_result active_proxies uuids task io = Ok v ->
  tasks' !! task = None.
Proof.
  revert tasks. induction done as [|[task0 io0] done IH]; intros tasks Hrun Hin Hres.
  - by apply elem_of_nil in Hin.
  - simpl in Hrun.
    destruct (task_result_cases active_proxies uuids task0 io0) as [H0|[e H0]];
      rewrite H0 in Hrun; [|discriminate].
    destruct (tasks !! task0) as [p|] eqn:Hp; [|discriminate].
    apply elem_of_cons in Hin as [[= -> ->]|Hin].
    + pose proof (for_done_subseteq done (delete task0 tasks)) as Hsub.
      rewrite Hrun in Hsub. simpl in Hsub.
      eapply lookup_weaken_None; [|exact Hsub]. apply lookup_delete_eq.
    + by apply (IH (delete task0 tasks)).
Qed.



End FleetProperties.




(** * Further properties of the code *)

(** ** The added definitions on small inputs *)

Example splitlines_mixed :
  splitlines (String "a" (String LF (String LF (String "b"
             (String (ascii_of_N 13) (String LF (String "c"
             (String (ascii_of_N 13) (String "d" EmptyString))))))))) =
    ["a"; ""; "b"; "c"; "d"].
Proof. reflexivity. Qed.

Example splitlines_empty : splitlines "" = [].
Proof. reflexivity. Qed.

Example splitlines_only_LF : splitlines (String LF EmptyString) = [""].
Proof. reflexivity. Qed.

Example splitlines_LF_CR :
  splitlines (String "a" (String LF (String (ascii_of_N 13) EmptyString))) = ["a"; ""].
Proof. reflexivity. Qed.

(** U+2028 (E2 80 A8) and U+0085 (C2 85) are boundaries, U+2027 (E2 80 A7)
    and U+0145 (C5 85) are not *)
Example splitlines_unicode :
  splitlines (string_of_list_ascii (map ascii_of_N
    [97; 226; 128; 168; 98; 194; 133; 99; 226; 128; 167; 197; 133]%N)) =
    [ "a"; "b";
      string_of_list_ascii (map ascii_of_N [99; 226; 128; 167; 197; 133]%N) ].
Proof. reflexivity. Qed.

(** one proxy whose run fails: after the pass the table is empty and [main]
    is in its sleep; it returns when the sleep has *)
Example main_last_sleep :
  main ["P1"] (fun _ => "uuid") [mkRound [(0%nat, [NetRaise ClientError])] false] =
    (Pending, ∅) /\
  main ["P1"] (fun _ => "uuid") [mkRound [(0%nat, [NetRaise ClientError])] true] =
    (Ok tt, ∅).
Proof. split; vm_compute; reflexivity. Qed.

Example fetch_proxies_200 : fetch_proxies (HttpResp 200 (Ok "1.2.3.4:80")) = Ok "1.2.3.4:80".
Proof. reflexivity. Qed.

Example fetch_proxies_404 : fetch_proxies (HttpResp 404 (Ok "Not Found")) = Raise ValueError.
Proof. reflexivity. Qed.

Example fetch_proxies_timeout : fetch_proxies (HttpRaise TimeoutError) = Raise TimeoutError.
Proof. reflexivity. Qed.

Example run_main_blank_line :
  run_main (HttpResp 200 (Ok (newline_terminated ["P1"; ""; "P3"]))) (fun _ => "uuid") [] =
    (Pending, {[ 0%nat := "P1"; 1%nat := ""; 2%nat := "P3" ]}).
Proof. vm_compute. reflexivity. Qed.

(** ** What a heartbeat and a run can do to the fields *)

(** every heartbeat leaves the fields as they were or makes one of three
    updates *)
Lemma ping_state_cases o s :
  snd (ping o s) = s \/
  snd (ping o s) = set_status_connect CONNECTED (set_retries 0 s) \/
  snd (ping o s) = logged_out (set_retries (retries s + 1) s) \/
  snd (ping o s) = failed_once s.
Proof.
  destruct (is_dict (account_info s)) eqn:Hd.
  - destruct (ping_cases o s Hd) as [[_ ->]|[_ (s' & -> & [->|[->| ->]])]]; simpl; auto.
  - rewrite (ping_not_sent s o Hd). by left.
Qed.

(** the fields a run leaves: the initial ones, the logged out ones, the
    initial ones with the account data of the response, or what the
    heartbeat loop made of the latter *)
Lemma run_state_cases tr s :
  snd (render_profile_info tr s) = s \/
  snd (render_profile_info tr s) = logged_out s \/
  exists d,
    snd (render_profile_info tr s) = set_account_info d s \/
    exists tr', is_dict d = true /\
      snd (render_profile_info tr s) = snd (ping_forever tr' (set_account_info d s)).
Proof.
  destruct tr as [|o tr]; [by left|].
  rewrite render_profile_info_cons.
  destruct (fst (call_api o s)) as [resp|e|]; [| |by left].
  2:{ destruct (is_Exception e); by left. }
  destruct (Py.getitem resp "data") as [d|e|]; try (by left).
  destruct (get_cases d "uid") as [[Hdict (uid & Hu)]|[Hdict Hu]]; rewrite Hu.
  - destruct (Py.truthy uid); [|by right; left].
    right; right. exists d. right. exists tr. by split.
  - right; right. exists d. by left.
Qed.

Lemma ping_failure_state s o :
  is_dict (account_info s) = true -> heartbeat_failure o ->
  ping o s = (Ok tt, failed_once s).
Proof.
  intros Hd Hf. destruct Hf as [e He|resp e Hr|resp c Hv Hc H0 H403].
  - destruct (is_ClientError e) eqn:Hce.
    + apply (ping_raised s ValueError); [exact Hd|reflexivity|].
      unfold call_api. rewrite Hce. reflexivity.
    + apply (ping_raised s e); [exact Hd|exact He|].
      unfold call_api. rewrite Hce. reflexivity.
  - apply (ping_raised s e); [exact Hd| |].
    + destruct (valid_resp_raises _ _ Hr) as [-> | ->]; reflexivity.
    + unfold call_api, lift. rewrite Hr. reflexivity.
  - rewrite (ping_validated s resp c Hd Hv Hc), H0, H403. reflexivity.
Qed.

Lemma ping_awaiting_dict s :
  is_dict (account_info s) = true -> ping_awaiting s = (Pending, s).
Proof.
  intros Hd. unfold ping_awaiting, ping_data, bind, gets, lift, pending.
  destruct (account_info s); try discriminate. reflexivity.
Qed.

(** X1: a run never changes the proxy or the browser id of its agent,
    whatever the network answers and however long it runs. *)
Theorem run_keeps_proxy_and_browser_id (tr : list net) (s : ProxyManager) :
  proxy (snd (render_profile_info tr s)) = proxy s /\
  browser_id (snd (render_profile_info tr s)) = browser_id s.
Proof.
  destruct (run_state_cases tr s) as [->|[->|(d & [->|(tr' & _ & ->)])]];
    try (split; reflexivity).
  apply (ping_forever_invariant
           (fun s' => proxy s' = proxy s /\ browser_id s' = browser_id s));
    [|split; reflexivity].
  clear. intros o s' [Hp Hb].
  destruct (ping_state_cases o s') as [->|[->|[->| ->]]]; simpl; auto.
Qed.

(** X2: a run never replaces the credential: at every point the credential
    is the one the agent started with, or None; in particular a credential
    cleared by a logout is never restored. *)
Theorem run_only_clears_credential (tr : list net) (s : ProxyManager) :
  token_info (snd (render_profile_info tr s)) = token_info s \/
  token_info (snd (render_profile_info tr s)) = None.
Proof.
  destruct (run_state_cases tr s) as [->|[->|(d & [->|(tr' & _ & ->)])]];
    [by left|by right|by left|].
  apply (ping_forever_invariant
           (fun s' => token_info s' = token_info s \/ token_info s' = None));
    [|by left].
  clear. intros o s' H.
  destruct (ping_state_cases o s') as [->|[->|[->| ->]]]; simpl; auto.
Qed.

(** X3: heartbeats that fail one after the other (none with code 403) add
    up: after n > 0 of them the failure count has grown by n and the state
    is DISCONNECTED, the loop is still running and nothing else has changed,
    however far beyond RETRIES the count goes. *)
Theorem consecutive_failures_add_up (tr : list net) (s : ProxyManager) :
  is_dict (account_info s) = true ->
  Forall heartbeat_failure tr ->
  tr <> [] ->
  ping_forever tr s =
    (Pending, {| token_info := token_info s; proxy := proxy s;
                 browser_id := browser_id s; account_info := account_info s;
                 status_connect := DISCONNECTED;
                 retries := retries s + Z.of_nat (length tr) |}).
Proof.
  intros Hd Hf Hne. revert s Hd Hne.
  induction Hf as [|o tr Ho Hf IH]; intros s Hd Hne; [done|].
  simpl ping_forever. unfold bind. rewrite (ping_failure_state s o Hd Ho).
  destruct tr as [|o' tr'].
  - simpl. rewrite ping_awaiting_dict by exact Hd. reflexivity.
  - rewrite (IH (failed_once s)) by (simpl; done). simpl.
    do 2 f_equal. lia.
Qed.

Lemma consecutive_failures_add_up_witness :
  ping_forever [NetRaise TimeoutError; NetBody code_500; NetBody (JInt 5)]
               (set_retries 59 connected_abc) =
    (Pending, {| token_info := Some NP_TOKEN; proxy := "P1"; browser_id := "uuid-1";
                 account_info := JObj [("uid", JStr "abc")];
                 status_connect := DISCONNECTED; retries := 62 |}).
Proof.
  apply (consecutive_failures_add_up
           [NetRaise TimeoutError; NetBody code_500; NetBody (JInt 5)]
           (set_retries 59 connected_abc)).
  - reflexivity.
  - repeat constructor.
    + apply (other_code code_500 (JInt 500)); reflexivity.
    + apply (invalid_shape (JInt 5) TypeError). reflexivity.
  - discriminate.
Defined.

(** X4: once the authentication has stored a usable uid, the run ends only
    by cancellation: whatever the heartbeats are answered (code 403 and any
    number of failures included) it is still running as long as no
    cancellation has arrived, and it has returned None as soon as one has. *)
Theorem authenticated_run_ends_only_by_cancellation
    (resp d uid : json) (tr : list net) (s : ProxyManager) :
  valid_resp resp = Ok resp ->
  Py.getitem resp "data" = Ok d ->
  Py.get d "uid" = Ok uid ->
  Py.truthy uid = true ->
  fst (render_profile_info (NetBody resp :: tr) s) =
    if existsb is_cancel tr then Ok JNull else Pending.
Proof.
  intros Hv Hd Hu Ht. rewrite render_profile_info_cons.
  unfold call_api, lift. simpl. rewrite Hv, Hd, Hu, Ht. reflexivity.
Qed.

Lemma authenticated_run_ends_only_by_cancellation_witness :
  fst (render_profile_info
         [auth_abc; NetBody code_403; NetRaise TimeoutError; NetBody code_403] fresh) =
    Pending /\
  fst (render_profile_info
         [auth_abc; NetBody code_403; NetRaise CancelledError; NetBody code_0] fresh) =
    Ok JNull.
Proof.
  split.
  - apply (authenticated_run_ends_only_by_cancellation
             (JObj [("code", JInt 0); ("data", JObj [("uid", JStr "abc")])])
             (JObj [("uid", JStr "abc")]) (JStr "abc")
             [NetBody code_403; NetRaise TimeoutError; NetBody code_403] fresh);
      reflexivity.
  - apply (authenticated_run_ends_only_by_cancellation
             (JObj [("code", JInt 0); ("data", JObj [("uid", JStr "abc")])])
             (JObj [("uid", JStr "abc")]) (JStr "abc")
             [NetBody code_403; NetRaise CancelledError; NetBody code_0] fresh);
      reflexivity.
Defined.

(** X5: in every state of every run of a new agent the state is one of the
    three of CONNECTION_STATES, the failure count is not negative, it is 0
    whenever the state is CONNECTED and at least 1 whenever the state is
    DISCONNECTED. *)
Theorem run_status_and_retries (tr : list net) (tok p u : string) :
  (status_connect (snd (render_profile_info tr (init tok p u))) = CONNECTED \/
   status_connect (snd (render_profile_info tr (init tok p u))) = DISCONNECTED \/
   status_connect (snd (render_profile_info tr (init tok p u))) = NONE_CONNECTION) /\
  0 <= retries (snd (render_profile_info tr (init tok p u))) /\
  (status_connect (snd (render_profile_info tr (init tok p u))) = CONNECTED ->
   retries (snd (render_profile_info tr (init tok p u))) = 0) /\
  (status_connect (snd (render_profile_info tr (init tok p u))) = DISCONNECTED ->
   1 <= retries (snd (render_profile_info tr (init tok p u)))).
Proof.
  pose (P := fun s : ProxyManager =>
    (status_connect s = CONNECTED \/ status_connect s = DISCONNECTED \/
     status_connect s = NONE_CONNECTION) /\
    0 <= retries s /\
    (status_connect s = CONNECTED -> retries s = 0) /\
    (status_connect s = DISCONNECTED -> 1 <= retries s)).
  assert (Hstart : forall acc, P (set_account_info acc (init tok p u))).
  { intros acc. unfold P. simpl. repeat split; auto; try lia; discriminate. }
  change (P (snd (render_profile_info tr (init tok p u)))).
  destruct (run_state_cases tr (init tok p u))
    as [->|[->|(d & [->|(tr' & _ & ->)])]].
  - apply (Hstart (JObj [])).
  - apply (Hstart (JObj [])).
  - apply Hstart.
  - apply ping_forever_invariant; [|apply Hstart].
    clear. intros o s (Hst & Hr & Hc & Hd).
    destruct (ping_state_cases o s) as [->|[->|[->| ->]]]; unfold P; simpl.
    + auto.
    + repeat split; auto; try lia. discriminate.
    + repeat split; auto; try lia; discriminate.
    + repeat split; auto; try lia. discriminate.
Qed.

(** X6: an authentication response that passes validation but has no
    "data" member ends the run with None and the fields untouched; one whose
    "data" is not a dict ends the run with None, account_info holding that
    value; in both cases no logout is done (the credential is kept) and no
    heartbeat is sent. *)
Theorem authentication_without_account_data
    (resp : json) (tr : list net) (s : ProxyManager) :
  valid_resp resp = Ok resp ->
  (Py.getitem resp "data" = Raise KeyError ->
   render_profile_info (NetBody resp :: tr) s = (Ok JNull, s)) /\
  (forall d, Py.getitem resp "data" = Ok d -> is_dict d = false ->
   render_profile_info (NetBody resp :: tr) s =
     (Ok JNull, {| token_info := token_info s; proxy := proxy s;
                   browser_id := browser_id s; account_info := d;
                   status_connect := status_connect s; retries := retries s |})).
Proof.
  intros Hv. split.
  - intros Hk. rewrite render_profile_info_cons.
    unfold call_api, lift. simpl. rewrite Hv, Hk. reflexivity.
  - intros d Hd Hdict. rewrite render_profile_info_cons.
    unfold call_api, lift. simpl. rewrite Hv, Hd.
    destruct (get_cases d "uid") as [[Hdict' _]|[_ ->]]; [congruence|reflexivity].
Qed.

Lemma authentication_without_account_data_witness :
  render_profile_info [NetBody code_0; NetBody code_0] fresh = (Ok JNull, fresh) /\
  render_profile_info
    [ok_body [("code", JInt 0); ("data", JArr [JStr "uid"])]; NetBody code_0] fresh =
    (Ok JNull, set_account_info (JArr [JStr "uid"]) fresh).
Proof.
  split.
  - exact (proj1 (authentication_without_account_data code_0 [NetBody code_0] fresh
                    eq_refl) eq_refl).
  - exact (proj2 (authentication_without_account_data
                    (JObj [("code", JInt 0); ("data", JArr [JStr "uid"])])
                    [NetBody code_0] fresh eq_refl)
                 (JArr [JStr "uid"]) eq_refl eq_refl).
Defined.

(** the bodies [valid_resp] returns *)
Lemma valid_resp_Ok_iff (resp : json) :
  valid_resp resp = Ok resp <->
  exists c, Resp.code_of resp = Some c /\ Resp.is_number c /\ ~ Resp.negative c.
Proof.
  split.
  - intros H. apply valid_resp_Ok_inv in H as [_ (kv & c & -> & Hc & Hl)].
    exists c. split; [exact Hc|]. apply lt0_inv in Hl as [Hn Hneg].
    split; [exact Hn|]. intros Hc'. apply Hneg in Hc'. discriminate.
  - intros (c & Hc & Hn & Hneg). destruct resp as [ |b|z|f|s|l|kv]; try discriminate.
    simpl in Hc. rewrite (valid_resp_obj _ _ Hc).
    destruct (lt0_number c Hn) as (b & -> & Hb).
    destruct b; [|reflexivity]. exfalso. apply Hneg, Hb. reflexivity.
Qed.

(** X7: [call_api] never changes a field; it returns exactly when the
    network delivered a body that is an object whose code is a number that is
    not negative, and then it returns that body, unchanged; on any other body
    it raises ValueError or TypeError; a client error of the request becomes
    ValueError, so that no aiohttp.ClientError leaves it, while any other
    exception of the request (a timeout, a cancellation) passes through as it
    is. *)
Theorem call_api_frame (o : net) (s : ProxyManager) :
  snd (call_api o s) = s /\
  (forall r, fst (call_api o s) = Ok r <->
     o = NetBody r /\
     exists c, Resp.code_of r = Some c /\ Resp.is_number c /\ ~ Resp.negative c) /\
  (forall resp, o = NetBody resp ->
     fst (call_api o s) = Ok resp \/
     fst (call_api o s) = Raise ValueError \/ fst (call_api o s) = Raise TypeError) /\
  (forall e, o = NetRaise e ->
     fst (call_api o s) = Raise (if is_ClientError e then ValueError else e)) /\
  fst (call_api o s) <> Raise ClientError.
Proof.
  split; [|split; [|split; [|split]]].
  - destruct (call_api_cases o s) as [(r & _ & _ & ->)|[(e & _ & ->)|[_ ->]]];
      reflexivity.
  - intros r. split.
    + intros Hr.
      destruct (call_api_cases o s) as [(r' & -> & Hv & Hc)|[(e & _ & Hc)|[_ Hc]]];
        rewrite Hc in Hr; simpl in Hr; try discriminate.
      injection Hr as ->. split; [reflexivity|]. by apply valid_resp_Ok_iff.
    + intros [-> Hc]. apply valid_resp_Ok_iff in Hc.
      simpl. unfold lift. simpl. exact Hc.
  - intros resp ->. simpl. unfold lift. simpl. apply valid_resp_total.
  - intros e ->. simpl. by destruct (is_ClientError e).
  - destruct o as [resp|e]; simpl.
    + unfold lift. simpl.
      destruct (valid_resp_total resp) as [->|[->| ->]]; discriminate.
    + destruct e; simpl; discriminate.
Qed.

(** X8: a heartbeat never lets an exception of class Exception out: from
    fields whose account_info is a dict it returns normally whatever the
    network did, except when the task is cancelled, and then the fields are
    untouched; from other fields it raises AttributeError before sending
    anything, again with the fields untouched. *)
Theorem ping_absorbs_failures (o : net) (s : ProxyManager) :
  (is_dict (account_info s) = true ->
   (is_cancel o = false -> fst (ping o s) = Ok tt) /\
   (is_cancel o = true -> ping o s = (Raise CancelledError, s))) /\
  (is_dict (account_info s) = false -> ping o s = (Raise AttributeError, s)).
Proof.
  split; [|apply ping_not_sent].
  intros Hd.
  destruct (ping_cases o s Hd) as [[-> Hp]|[Hne (s' & Hp & _)]]; rewrite Hp; split.
  - discriminate.
  - reflexivity.
  - reflexivity.
  - intros Hc. by apply is_cancel_true in Hc.
Qed.

(** ** The proxy list and the task table *)

Lemma list_to_map_imap_map_seq (l : list string) (k : nat) :
  list_to_map (imap (fun i p => ((k + i)%nat, p)) l) =@{gmap nat string} map_seq k l.
Proof.
  revert k. induction l as [|x l IH]; intros k; [reflexivity|].
  rewrite imap_cons. simpl. rewrite Nat.add_0_r. f_equal.
  rewrite <- IH. f_equal. apply imap_ext. intros i y _. simpl. f_equal. lia.
Qed.

Lemma initial_tasks_map_seq proxies :
  initial_tasks proxies = map_seq 0 (take 100 proxies).
Proof. unfold initial_tasks. apply (list_to_map_imap_map_seq _ 0). Qed.

Lemma map_seq_size (l : list string) (k : nat) :
  size (map_seq k l : gmap nat string) = length l.
Proof.
  revert k. induction l as [|x l IH]; intros k; simpl.
  - apply map_size_empty.
  - rewrite map_size_insert_None by apply map_seq_cons_disjoint. by rewrite IH.
Qed.

Lemma initial_tasks_lookup_take proxies (i : nat) :
  initial_tasks proxies !! i = take 100 proxies !! i.
Proof. rewrite initial_tasks_map_seq. apply lookup_map_seq_0. Qed.

Lemma initial_tasks_size proxies :
  size (initial_tasks proxies) = min 100 (length proxies).
Proof. by rewrite initial_tasks_map_seq, map_seq_size, length_take. Qed.

(** X9: [fetch_proxies] returns a text exactly when the request was
    answered with status 200 and the text could be read, and then it returns
    that text; any other status gives ValueError whatever the body; a client
    error gives ValueError too, so that no aiohttp.ClientError leaves the
    function, and any other exception passes through. *)
Theorem fetch_proxies_cases (o : http) :
  (forall t, fetch_proxies o = Ok t <-> o = HttpResp 200 (Ok t)) /\
  (forall status text, status <> 200 ->
     fetch_proxies (HttpResp status text) = Raise ValueError) /\
  fetch_proxies o <> Raise ClientError /\
  (forall e, fetch_proxies (HttpRaise e) =
             Raise (if is_ClientError e then ValueError else e)) /\
  (forall e, fetch_proxies (HttpResp 200 (Raise e)) =
             Raise (if is_ClientError e then ValueError else e)).
Proof.
  split; [|split; [|split; [|split]]].
  - intros t. split.
    + destruct o as [e|status text]; unfold fetch_proxies; simpl.
      * destruct (is_ClientError e); discriminate.
      * destruct (status =? 200) eqn:Hs; simpl; [|discriminate].
        apply Z.eqb_eq in Hs as ->.
        destruct text as [t'|e|]; simpl; [congruence| |discriminate].
        destruct (is_ClientError e); discriminate.
    + intros ->. reflexivity.
  - intros status text Hs. unfold fetch_proxies.
    apply Z.eqb_neq in Hs. rewrite Hs. reflexivity.
  - destruct o as [e|status text]; unfold fetch_proxies; simpl.
    + destruct e; simpl; discriminate.
    + destruct (status =? 200); simpl; [|discriminate].
      destruct text as [t'|e|]; simpl; try discriminate.
      destruct e; simpl; discriminate.
  - intros e. unfold fetch_proxies. simpl. by destruct (is_ClientError e).
  - intros e. unfold fetch_proxies. simpl. by destruct (is_ClientError e).
Qed.

(** X10: [main] creates one task for each of the first 100 proxies of the
    list, in the order of the list, and none for the proxies beyond: task i
    has proxy i of the list when i < 100, there is no task i otherwise, and
    the table starts with min(100, number of proxies) tasks. *)
Theorem initial_tasks_first_hundred (proxies : list string) (i : nat) :
  ((i < 100)%nat -> initial_tasks proxies !! i = proxies !! i) /\
  ((100 <= i)%nat -> initial_tasks proxies !! i = None) /\
  size (initial_tasks proxies) = min 100 (length proxies).
Proof.
  split; [|split].
  - intros Hi. rewrite initial_tasks_lookup_take. by apply lookup_take_lt.
  - intros Hi. rewrite initial_tasks_lookup_take. by apply lookup_take_ge.
  - apply initial_tasks_size.
Qed.

(** X11: at no point of the loop does [main] hold more than 100 tasks, nor
    more than there are proxies. *)
Theorem main_at_most_hundred_tasks (proxies : list string) (uuids : nat -> string)
    (rounds : list round) :
  (size (snd (main proxies uuids rounds)) <= 100)%nat /\
  (size (snd (main proxies uuids rounds)) <= length proxies)%nat.
Proof.
  assert (H : (size (snd (main proxies uuids rounds)) <= min 100 (length proxies))%nat).
  { rewrite <- initial_tasks_size. apply map_subseteq_size.
    unfold main. apply main_loop_subseteq. }
  lia.
Qed.

Section FleetLoopFacts.

Variable active_proxies : list string.
Variable uuids : nat -> string.


(** a pass touches no task that is not in [done] *)
Lemma for_done_other done (tasks : gmap nat string) task :
  task ∉ done_tasks done ->
  snd (for_done active_proxies uuids done tasks) !! task = tasks !! task.
Proof.
  revert tasks. induction done as [|[task0 io] done IH]; intros tasks Hnot; [done|].
  unfold done_tasks in Hnot. simpl in Hnot.
  apply not_elem_of_cons in Hnot as [Hne Hnot]. simpl.
  destruct (task_result active_proxies uuids task0 io) as [[ | | | | | | ]|e|];
    simpl; try done; try (by apply IH).
  destruct (tasks !! task0); simpl; [|done].
  rewrite IH by exact Hnot. by apply lookup_delete_ne.
Qed.

Lemma main_loop_other rounds (tasks : gmap nat string) task :
  Forall (fun r => task ∉ done_tasks (done_of r)) rounds ->
  snd (main_loop active_proxies uuids rounds tasks) !! task = tasks !! task.
Proof.
  intros Hall. revert tasks. induction Hall as [|r rounds Hd Hall IH]; intros tasks.
  - simpl. by destruct (decide (tasks = ∅)).
  - simpl. destruct (decide (tasks = ∅)); [done|].
    pose proof (for_done_other (done_of r) tasks task Hd) as Hfd.
    destruct (for_done active_proxies uuids (done_of r) tasks) as [[[]|e|] tasks'];
      simpl in *; [|done|done].
    destruct (slept r); [|done]. by rewrite IH.
Qed.



End FleetLoopFacts.


(** X13: dropping finished agents never touches the others: a task that no
    round of [asyncio.wait] has reported as done is still in the table, with
    its proxy, whatever happened to the tasks that were reported. *)
Theorem tasks_not_done_are_kept (proxies : list string) (uuids : nat -> string)
    (rounds : list round) (task : nat) :
  Forall (fun r => task ∉ done_tasks (done_of r)) rounds ->
  snd (main proxies uuids rounds) !! task = initial_tasks proxies !! task.
Proof. intros H. unfold main. by apply main_loop_other. Qed.

Lemma tasks_not_done_are_kept_witness :
  snd (main ["P1"; "P2"; "P3"; "P4"; "P5"] (fun _ => "uuid")
         [mkRound [(1%nat, [NetRaise ClientError])] true;
          mkRound [(3%nat, [NetRaise CancelledError])] true])
    !! 2%nat = Some "P3".
Proof.
  rewrite (tasks_not_done_are_kept ["P1"; "P2"; "P3"; "P4"; "P5"] (fun _ => "uuid")
             [mkRound [(1%nat, [NetRaise ClientError])] true;
              mkRound [(3%nat, [NetRaise CancelledError])] true]
             2%nat).
  - reflexivity.
  - repeat constructor; apply (bool_decide_unpack _); vm_compute; exact I.
Defined.

(** ** The lines of the fetched text *)

(** one step of [splitlines]: a boundary at the head ends an empty line,
    any other byte goes in front of the first line of what follows *)
Lemma splitlines_step (c : ascii) (rest : string) :
  splitlines (String c rest) =
    if boundary_at (String c rest)
    then EmptyString :: splitlines (after_boundary (String c rest))
    else keep c (splitlines rest).
Proof.
  simpl. destruct (is_break1 c); simpl.
  - destruct rest as [|c1 rest1]; [reflexivity|].
    by destruct (byte_is 13 c && byte_is 10 c1).
  - destruct rest as [|c1 rest1]; [reflexivity|].
    destruct (is_NEL c c1); simpl; [reflexivity|].
    destruct rest1 as [|c2 rest2]; [reflexivity|].
    by destruct (is_LS_PS c c1 c2).
Qed.

(** only the empty text has no line *)
Lemma splitlines_nil (text : string) : splitlines text = [] -> text = EmptyString.
Proof.
  destruct text as [|c rest]; [reflexivity|]. rewrite splitlines_step.
  destruct (boundary_at (String c rest)); [discriminate|].
  by destruct (splitlines rest).
Qed.

Lemma after_boundary_shorter (c : ascii) (rest : string) :
  (String.length (after_boundary (String c rest)) <= String.length rest)%nat.
Proof.
  simpl. destruct rest as [|c1 rest1]; [simpl; lia|].
  destruct (is_break1 c).
  - destruct (byte_is 13 c && byte_is 10 c1); simpl; lia.
  - destruct (is_NEL c c1); [simpl; lia|].
    destruct rest1; simpl; lia.
Qed.

(** the first line is the beginning of the text *)
Lemma splitlines_first_line (text line : string) (lines : list string) :
  splitlines text = line :: lines -> exists tail, text = (line ++ tail)%string.
Proof.
  revert line lines. induction text as [|c rest IH]; intros line lines; [discriminate|].
  rewrite splitlines_step. destruct (boundary_at (String c rest)).
  - intros [= <- _]. by exists (String c rest).
  - destruct (splitlines rest) as [|line' lines'] eqn:Hrest; simpl.
    + intros [= <- _]. by exists rest.
    + intros [= <- _]. destruct (IH line' lines' eq_refl) as [tail ->].
      by exists tail.
Qed.

(** whether a boundary starts the string is decided by its first bytes *)
Lemma boundary_at_beginning (c : ascii) (line tail : string) :
  boundary_at (String c (line ++ tail)) = false ->
  boundary_at (String c line) = false.
Proof.
  simpl. destruct (is_break1 c); simpl; [done|].
  destruct line as [|c1 line1]; [done|]. simpl.
  destruct (is_NEL c c1); simpl; [done|].
  destruct line1 as [|c2 line2]; done.
Qed.

Lemma splitlines_lines_bounded (n : nat) (text : string) :
  (String.length text <= n)%nat ->
  Forall (fun line => has_linebreak line = false) (splitlines text).
Proof.
  revert text. induction n as [|n IH]; intros text Hlen.
  - destruct text; [constructor|simpl in Hlen; lia].
  - destruct text as [|c rest]; [constructor|].
    simpl String.length in Hlen. rewrite splitlines_step.
    destruct (boundary_at (String c rest)) eqn:Hb.
    + constructor; [reflexivity|]. apply IH.
      pose proof (after_boundary_shorter c rest). lia.
    + assert (Hrest : Forall (fun line => has_linebreak line = false) (splitlines rest))
        by (apply IH; lia).
      destruct (splitlines rest) as [|line lines] eqn:Hsplit; simpl.
      * repeat constructor. apply splitlines_nil in Hsplit as ->.
        simpl in *. by rewrite Hb.
      * inversion Hrest as [|? ? Hline Hlines]; subst.
        constructor; [|exact Hlines].
        destruct (splitlines_first_line _ _ _ Hsplit) as [tail ->].
        change (boundary_at (String c line) || has_linebreak line = false).
        by rewrite (boundary_at_beginning _ _ _ Hb), Hline.
Qed.

Lemma splitlines_no_linebreak (text : string) :
  Forall (fun line => has_linebreak line = false) (splitlines text).
Proof. by apply (splitlines_lines_bounded (String.length text)). Qed.

(** a line feed after a line completes no boundary that the line began *)
Lemma boundary_at_before_LF (c : ascii) (line rest : string) :
  boundary_at (String c line) = false ->
  boundary_at (String c (line ++ String LF rest)) = false.
Proof.
  simpl. destruct (is_break1 c); simpl; [done|].
  destruct line as [|c1 line1]; simpl.
  - intros _. unfold is_NEL, is_LS_PS.
    replace (byte_is 133 LF) with false by reflexivity.
    replace (byte_is 128 LF) with false by reflexivity.
    rewrite !andb_false_r. by destruct rest.
  - destruct (is_NEL c c1); simpl; [done|].
    destruct line1 as [|c2 line2]; simpl; [|done].
    intros _. unfold is_LS_PS.
    replace (byte_is 168 LF) with false by reflexivity.
    replace (byte_is 169 LF) with false by reflexivity.
    by rewrite andb_false_r.
Qed.

Lemma splitlines_line_LF (line rest : string) :
  has_linebreak line = false ->
  splitlines (line ++ String LF rest) = line :: splitlines rest.
Proof.
  induction line as [|c line IH]; intros Hnb.
  - simpl. by destruct rest.
  - change (boundary_at (String c line) || has_linebreak line = false) in Hnb.
    apply orb_false_iff in Hnb as [Hc Hline].
    change (String c line ++ String LF rest)%string
      with (String c (line ++ String LF rest)).
    rewrite splitlines_step, (boundary_at_before_LF _ _ _ Hc), (IH Hline).
    reflexivity.
Qed.

Lemma splitlines_newline_terminated (lines : list string) :
  Forall (fun line => has_linebreak line = false) lines ->
  splitlines (newline_terminated lines) = lines.
Proof.
  induction 1 as [|line lines Hline Hlines IH]; [reflexivity|].
  simpl. by rewrite (splitlines_line_LF _ _ Hline), IH.
Qed.

(** X14: a text made of lines none of which contains a line boundary, each
    followed by a line feed, splits into exactly those lines, in order:
    nothing is trimmed or skipped, so an empty line of the text is a line of
    the result, and the final line feed adds no empty line at the end. *)
Theorem splitlines_of_terminated_lines (lines : list string) :
  Forall (fun line => has_linebreak line = false) lines ->
  splitlines (newline_terminated lines) = lines.
Proof. apply splitlines_newline_terminated. Qed.

Lemma splitlines_of_terminated_lines_witness :
  splitlines (newline_terminated ["1.2.3.4:80"; ""; "5.6.7.8:3128"]) =
    ["1.2.3.4:80"; ""; "5.6.7.8:3128"].
Proof.
  apply (splitlines_of_terminated_lines ["1.2.3.4:80"; ""; "5.6.7.8:3128"]).
  repeat constructor.
Defined.

(** X15: no line produced by [splitlines] contains a line boundary (LF, VT,
    FF, CR, FS, GS, RS, NEL, LS, PS); a text without any boundary is its own
    single line, and the empty text has no line at all. *)
Theorem splitlines_lines_have_no_boundary (text : string) :
  Forall (fun line => has_linebreak line = false) (splitlines text) /\
  (has_linebreak text = false ->
   splitlines text = match text with EmptyString => [] | _ => [text] end).
Proof.
  split; [apply splitlines_no_linebreak|].
  induction text as [|c rest IH]; [reflexivity|].
  intros Hnb.
  change (boundary_at (String c rest) || has_linebreak rest = false) in Hnb.
  apply orb_false_iff in Hnb as [Hc Hrest].
  rewrite splitlines_step, Hc, (IH Hrest). by destruct rest.
Qed.

(** X16: when the proxy list is fetched with status 200, every task that
    [main] ever holds belongs to one of the first 100 lines of the text: task
    i has line i as its proxy, a line without line boundary, taken as it is
    (an empty line gives a task with the empty proxy); with any other status,
    or a client error, [main] fails with ValueError before any task
    exists. *)
Theorem run_main_tasks_are_lines (text : string) (uuids : nat -> string)
    (rounds : list round) :
  (forall task p,
     snd (run_main (HttpResp 200 (Ok text)) uuids rounds) !! task = Some p ->
     (task < 100)%nat /\ splitlines text !! task = Some p /\
     has_linebreak p = false) /\
  (forall task, (task < 100)%nat ->
     snd (run_main (HttpResp 200 (Ok text)) uuids []) !! task =
       splitlines text !! task) /\
  (forall status body, status <> 200 ->
     run_main (HttpResp status body) uuids rounds = (Raise ValueError, ∅)) /\
  run_main (HttpRaise ClientError) uuids rounds = (Raise ValueError, ∅).
Proof.
  split; [|split; [|split]].
  - intros task p Hp. unfold run_main, fetch_proxies in Hp. simpl in Hp.
    unfold main in Hp.
    eapply lookup_weaken in Hp; [|apply main_loop_subseteq].
    rewrite initial_tasks_lookup_take in Hp.
    apply lookup_take_Some in Hp as [Hp Hlt].
    split; [exact Hlt|]. split; [exact Hp|].
    exact (proj1 (Forall_lookup _ _) (splitlines_no_linebreak text) task p Hp).
  - intros task Hlt. unfold run_main, fetch_proxies. simpl. unfold main. simpl.
    destruct (decide (initial_tasks (splitlines text) = ∅)); simpl;
      rewrite initial_tasks_lookup_take; by apply lookup_take_lt.
  - intros status body Hs. unfold run_main, fetch_proxies.
    apply Z.eqb_neq in Hs. rewrite Hs. reflexivity.
  - reflexivity.
Qed.

(** ** More on the run of an agent and on a pass over [done] *)

(** X17: in every state of every run of a new agent, a cleared credential
    comes with an empty account_info: the only thing that clears the
    credential is the logout, and nothing fills account_info again after it,
    so that every heartbeat sent after a logout carries the id None. *)
Theorem cleared_credential_means_empty_account (tr : list net) (tok p u : string) :
  token_info (snd (render_profile_info tr (init tok p u))) = None ->
  account_info (snd (render_profile_info tr (init tok p u))) = JObj [] /\
  ping_data (snd (render_profile_info tr (init tok p u))) =
    (Ok JNull, snd (render_profile_info tr (init tok p u))).
Proof.
  assert (H : token_info (snd (render_profile_info tr (init tok p u))) = None ->
              account_info (snd (render_profile_info tr (init tok p u))) = JObj []).
  { destruct (run_state_cases tr (init tok p u))
      as [->|[->|(d & [->|(tr' & _ & ->)])]]; try done.
    apply (ping_forever_invariant
             (fun s => token_info s = None -> account_info s = JObj [])); [|done].
    clear. intros o s Hs.
    destruct (ping_state_cases o s) as [->|[->|[->| ->]]]; simpl; auto. }
  intros Hnone. split; [by apply H|].
  unfold ping_data, bind, gets, lift. by rewrite (H Hnone).
Qed.

Lemma cleared_credential_means_empty_account_witness :
  account_info
    (snd (render_profile_info [auth_abc; NetBody code_403; NetBody code_0] fresh)) =
    JObj [] /\
  ping_data
    (snd (render_profile_info [auth_abc; NetBody code_403; NetBody code_0] fresh)) =
    (Ok JNull,
     snd (render_profile_info [auth_abc; NetBody code_403; NetBody code_0] fresh)).
Proof.
  apply (cleared_credential_means_empty_account
           [auth_abc; NetBody code_403; NetBody code_0] NP_TOKEN "P1" "uuid-1").
  reflexivity.
Defined.

(** X18: a pass over [done] that [asyncio.wait] could have produced (each
    task listed once, each in the table, each run returned) runs to its end
    and removes exactly the listed tasks: afterwards a listed task is gone
    and every other task is in the table as before. *)
Theorem for_done_removes_exactly_done (active_proxies : list string)
    (uuids : nat -> string) (done : list (nat * list net))
    (tasks : gmap nat string) :
  NoDup (done_tasks done) ->
  Forall (fun entry =>
            is_Some (tasks !! fst entry) /\
            exists v, task_result active_proxies uuids (fst entry) (snd entry) = Ok v)
         done ->
  fst (for_done active_proxies uuids done tasks) = Ok tt /\
  (forall task,
     snd (for_done active_proxies uuids done tasks) !! task =
       if decide (task ∈ done_tasks done) then None else tasks !! task).
Proof.
  revert tasks. induction done as [|[task0 io] done IH]; intros tasks Hnd Hall.
  - split; [reflexivity|]. intros task. simpl.
    destruct (decide (task ∈ done_tasks [])) as [Hin|_]; [|done].
    by apply elem_of_nil in Hin.
  - unfold done_tasks in Hnd. simpl in Hnd. apply NoDup_cons in Hnd as [Hnot Hnd].
    apply Forall_cons in Hall as [[[p Hp] [v Hv]] Hall]. simpl in Hp, Hv.
    assert (Hv' : task_result active_proxies uuids task0 io = Ok JNull).
    { destruct (task_result_cases active_proxies uuids task0 io) as [H|[e H]];
        [exact H|congruence]. }
    simpl. rewrite Hv', Hp.
    destruct (IH (delete task0 tasks) Hnd) as [Hok Hlook].
    { eapply Forall_forall. intros [t io'] Hin.
      rewrite Forall_forall in Hall. destruct (Hall _ Hin) as [Hsome Hres].
      split; [|exact Hres]. simpl in *.
      rewrite lookup_delete_ne; [exact Hsome|].
      intros ->. apply Hnot. apply list_elem_of_fmap. by exists (t, io'). }
    split; [exact Hok|]. intros task. rewrite Hlook.
    unfold done_tasks. simpl.
    destruct (decide (task ∈ map fst done)) as [Hin|Hnin];
      destruct (decide (task ∈ task0 :: map fst done)) as [Hin'|Hnin'].
    + reflexivity.
    + exfalso. apply Hnin'. by right.
    + apply elem_of_cons in Hin' as [->|Hin']; [apply lookup_delete_eq|done].
    + apply lookup_delete_ne. intros ->. apply Hnin'. by left.
Qed.

Lemma for_done_removes_exactly_done_witness :
  fst (for_done ["P1"; "P2"; "P3"] (fun _ => "uuid")
         [(2%nat, [NetRaise TimeoutError]); (0%nat, [auth_abc; NetRaise CancelledError])]
         (initial_tasks ["P1"; "P2"; "P3"])) = Ok tt /\
  forall task,
    snd (for_done ["P1"; "P2"; "P3"] (fun _ => "uuid")
           [(2%nat, [NetRaise TimeoutError]); (0%nat, [auth_abc; NetRaise CancelledError])]
           (initial_tasks ["P1"; "P2"; "P3"])) !! task =
      if decide (task ∈ done_tasks
                   [(2%nat, [NetRaise TimeoutError]);
                    (0%nat, [auth_abc; NetRaise CancelledError])])
      then None else initial_tasks ["P1"; "P2"; "P3"] !! task.
Proof.
  apply (for_done_removes_exactly_done ["P1"; "P2"; "P3"] (fun _ => "uuid")
           [(2%nat, [NetRaise TimeoutError]); (0%nat, [auth_abc; NetRaise CancelledError])]
           (initial_tasks ["P1"; "P2"; "P3"])).
  - apply (bool_decide_unpack _). vm_compute. exact I.
  - repeat constructor; simpl; try (by eexists); by exists JNull.
Defined.
